(** * Leave-request form: date selection, validation and attachment checks

    A shallow embedding of the client-side scripts of the leave form
    ([static/js/leave-form.js] and the calendar script that follows it in the
    same listing), with the properties of the form's specification stated
    over it.

    Conventions of the embedding:
    - a JavaScript [Date] produced by the calendar widget is its time value,
      an integer number of milliseconds ([Z]);
    - a JavaScript number that may be [NaN] is an [option Z];
    - a JavaScript string is the sequence of bytes of its UTF-8 encoding;
    - the [Date] constructor applied to a string is the host's: a function
      from strings to time values, fixed by the language for the date-only
      form [YYYY-MM-DD] and a parameter beyond it;
    - the page is a collection of finite maps from element ids to what the
      scripts read and write there ([value], [html], [disabled], ...);
    - [alert], [FileReader] reads and calendar background events are logged
      in the state, so that "nothing was shown / started" can be stated. *)

From Stdlib Require Import ZArith String Ascii List Bool Lia DecimalString.
From stdpp Require Import base option gmap strings list sorting.

Open Scope string_scope.
Open Scope Z_scope.

(* ===================================================================== *)
(** ** Host primitives used by the scripts *)
(* ===================================================================== *)

Module JS.

(** Truthiness of a string value: only the empty string is falsy. *)
Definition truthy (s : string) : bool := negb (String.eqb s "").

(** Truthiness of a variable holding [null] or a string. *)
Definition truthy_opt (o : option string) : bool :=
  match o with Some s => truthy s | None => false end.

(** [String(n)] for an integer-valued number; [None] is [NaN]. *)
Definition string_of_Z (z : Z) : string := NilZero.string_of_int (Z.to_int z).

Definition string_of_number (n : option Z) : string :=
  match n with Some z => string_of_Z z | None => "NaN" end.

(** *** [String.prototype.trim]

    [trim] removes the white space and line terminators of ECMAScript from
    both ends: U+0009 to U+000D, U+0020, U+00A0, U+1680, U+2000 to U+200A,
    U+2028, U+2029, U+202F, U+205F, U+3000 and U+FEFF.  A string being the
    bytes of its UTF-8 encoding, the characters beyond U+007F are
    recognised by their two or three bytes. *)

(** The ASCII white space: one byte. *)
Definition is_space (c : ascii) : bool :=
  let n := N_of_ascii c in
  (N.leb 9 n && N.leb n 13)%bool || N.eqb n 32.

(** The two-byte white space: U+00A0 is [C2 A0]. *)
Definition is_space2 (x y : N) : bool :=
  (N.eqb x 194 && N.eqb y 160)%bool.

(** The three-byte white space: U+1680 is [E1 9A 80]; U+2000 to U+200A,
    U+2028, U+2029 and U+202F are [E2 80 80] to [E2 80 8A], [E2 80 A8],
    [E2 80 A9] and [E2 80 AF]; U+205F is [E2 81 9F]; U+3000 is [E3 80 80];
    U+FEFF is [EF BB BF]. *)
Definition is_space3 (x y z : N) : bool :=
  ((N.eqb x 225 && N.eqb y 154 && N.eqb z 128)
   || (N.eqb x 226 && N.eqb y 128
       && ((N.leb 128 z && N.leb z 138) || N.eqb z 168 || N.eqb z 169
           || N.eqb z 175))
   || (N.eqb x 226 && N.eqb y 129 && N.eqb z 159)
   || (N.eqb x 227 && N.eqb y 128 && N.eqb z 128)
   || (N.eqb x 239 && N.eqb y 187 && N.eqb z 191))%bool.

(** The number of bytes of the white-space character the string starts
    with; 0 when it starts with none. *)
Definition leading_space (s : string) : nat :=
  match s with
  | String a r =>
      if is_space a then 1%nat
      else
        match r with
        | String b r' =>
            if is_space2 (N_of_ascii a) (N_of_ascii b) then 2%nat
            else
              match r' with
              | String c _ =>
                  if is_space3 (N_of_ascii a) (N_of_ascii b) (N_of_ascii c)
                  then 3%nat else 0%nat
              | EmptyString => 0%nat
              end
        | EmptyString => 0%nat
        end
  | EmptyString => 0%nat
  end.

(** The same for the white-space character a string ends with, read off
    the reversed string, whose bytes come last first. *)
Definition trailing_space (r : string) : nat :=
  match r with
  | String a r1 =>
      if is_space a then 1%nat
      else
        match r1 with
        | String b r2 =>
            if is_space2 (N_of_ascii b) (N_of_ascii a) then 2%nat
            else
              match r2 with
              | String c _ =>
                  if is_space3 (N_of_ascii c) (N_of_ascii b) (N_of_ascii a)
                  then 3%nat else 0%nat
              | EmptyString => 0%nat
              end
        | EmptyString => 0%nat
        end
  | EmptyString => 0%nat
  end.

(** The string without its first [n] bytes. *)
Fixpoint skip (n : nat) (s : string) : string :=
  match n, s with
  | S n', String _ s' => skip n' s'
  | _, _ => s
  end.

(** Removing white-space characters from the front as long as there are
    any; [fuel] bounds the number of characters removed. *)
Fixpoint strip (width : string -> nat) (fuel : nat) (s : string) : string :=
  match fuel with
  | O => s
  | S fuel' =>
      match width s with
      | O => s
      | S k => strip width fuel' (skip (S k) s)
      end
  end.

Fixpoint rev_append (s acc : string) : string :=
  match s with
  | EmptyString => acc
  | String c s' => rev_append s' (String c acc)
  end.

Definition reverse (s : string) : string := rev_append s EmptyString.

Definition trimStart (s : string) : string :=
  strip leading_space (String.length s) s.

Definition trimEnd (s : string) : string :=
  reverse (strip trailing_space (String.length s) (reverse s)).

Definition trim (s : string) : string := trimEnd (trimStart s).

(** [toLowerCase] on the ASCII letters. *)
Definition lower_char (c : ascii) : ascii :=
  let n := N_of_ascii c in
  if (N.leb 65 n && N.leb n 90)%bool then ascii_of_N (n + 32) else c.

Fixpoint toLowerCase (s : string) : string :=
  match s with
  | EmptyString => EmptyString
  | String c s' => String (lower_char c) (toLowerCase s')
  end.

(** [s.split(c)] for a one-character separator: never the empty array. *)
Fixpoint split (c : ascii) (s : string) : list string :=
  match s with
  | EmptyString => [EmptyString]
  | String a s' =>
      if Ascii.eqb a c then EmptyString :: split c s'
      else match split c s' with
           | seg :: segs => String a seg :: segs
           | [] => [String a EmptyString]
           end
  end.

(** [arr.pop()] as an expression: the last element. *)
Definition pop (l : list string) : string := List.last l EmptyString.

(** [arr.includes(x)] on strings. *)
Definition includes (l : list string) (x : string) : bool :=
  existsb (String.eqb x) l.

(** [arr.join(sep)]. *)
Definition join (sep : string) (l : list string) : string := String.concat sep l.

(** The default comparison of [Array.prototype.sort] on strings:
    code-unit-wise lexicographic order. *)
Definition str_le (a b : string) : Prop := String.leb a b = true.

#[global] Instance str_le_dec : RelDecision str_le :=
  fun a b => bool_eq_dec (String.leb a b) true.

Definition sort (l : list string) : list string := merge_sort str_le l.

(** Milliseconds in a day, as the scripts write it. *)
Definition msPerDay : Z := 1000 * 60 * 60 * 24.

(** [Math.ceil(x / d)] for integers [x] and [d > 0]. *)
Definition ceil_div (x d : Z) : Z := - ((- x) / d).

(** *** Calendar arithmetic behind [toISOString] and [new Date(string)] *)

(** Days since 1970-01-01 of a proleptic Gregorian date. *)
Definition days_from_civil (y m d : Z) : Z :=
  let y := if m <=? 2 then y - 1 else y in
  let era := y / 400 in
  let yoe := y - era * 400 in
  let doy := (153 * (if 2 <? m then m - 3 else m + 9) + 2) / 5 + d - 1 in
  let doe := yoe * 365 + yoe / 4 - yoe / 100 + doy in
  era * 146097 + doe - 719468.

(** The inverse: year, month and day of a day number. *)
Definition civil_from_days (z : Z) : Z * Z * Z :=
  let z := z + 719468 in
  let era := z / 146097 in
  let doe := z - era * 146097 in
  let yoe := (doe - doe / 1460 + doe / 36524 - doe / 146096) / 365 in
  let y := yoe + era * 400 in
  let doy := doe - (365 * yoe + yoe / 4 - yoe / 100) in
  let mp := (5 * doy + 2) / 153 in
  let d := doy - (153 * mp + 2) / 5 + 1 in
  let m := if mp <? 10 then mp + 3 else mp - 9 in
  (if m <=? 2 then y + 1 else y, m, d).

(** [n.toString().padStart(width, '0')] for a non-negative [n]. *)
Fixpoint zeros (n : nat) (s : string) : string :=
  match n with
  | O => s
  | S n' => zeros n' ("0" +:+ s)
  end.

Definition padZ (width : nat) (z : Z) : string :=
  let s := string_of_Z z in zeros (width - String.length s)%nat s.

(** [d.toISOString().split('T')[0]]: the UTC calendar date of a time
    value. *)
Definition toISODate (t : Z) : string :=
  let '(y, m, d) := civil_from_days (t / msPerDay) in
  let year :=
    if (0 <=? y) && (y <=? 9999) then padZ 4 y
    else (if y <? 0 then "-" else "+") +:+ padZ 6 (Z.abs y) in
  year +:+ "-" +:+ padZ 2 m +:+ "-" +:+ padZ 2 d.

Definition digit (c : ascii) : option Z :=
  let n := N_of_ascii c in
  if (N.leb 48 n && N.leb n 57)%bool then Some (Z.of_N n - 48) else None.

Fixpoint number (acc : Z) (s : string) : option Z :=
  match s with
  | EmptyString => Some acc
  | String c s' =>
      match digit c with
      | Some k => number (10 * acc + k) s'
      | None => None
      end
  end.

Definition is_leap (y : Z) : bool :=
  ((y mod 4 =? 0) && negb (y mod 100 =? 0)) || (y mod 400 =? 0).

Definition days_in_month (y m : Z) : Z :=
  if m =? 2 then (if is_leap y then 29 else 28)
  else if (m =? 4) || (m =? 6) || (m =? 9) || (m =? 11) then 30 else 31.

(** The date-only form [YYYY-MM-DD] of the ECMAScript date-time string
    format, the form the calendar widget gives [info.dateStr] in.
    [new Date(s)] reads such a string as UTC midnight of a day that exists:
    [Date_parse s = Some t] says that [s] has this form and that [t] is the
    time value of [new Date(s)].  [None] says no more than that [s] does
    not have this form.  What [new Date] makes of such a string is left to
    the host, which may read [2024/01/05] or a date with a time: the
    scripts that parse strings take the host's parser as a parameter
    ([LeaveForm.updateDateRange_with]), and [Date_parse] by itself is the
    parser of a host that reads this form and nothing else. *)
Definition Date_parse (s : string) : option Z :=
  if negb (String.length s =? 10)%nat then None else
  if negb (String.eqb (substring 4 1 s) "-" && String.eqb (substring 7 1 s) "-")
  then None else
  match number 0 (substring 0 4 s), number 0 (substring 5 2 s),
        number 0 (substring 8 2 s) with
  | Some y, Some m, Some d =>
      if (1 <=? m) && (m <=? 12) && (1 <=? d) && (d <=? days_in_month y m)
      then Some (days_from_civil y m d * msPerDay) else None
  | _, _, _ => None
  end.

(** Relational [a < b] on numbers that may be [NaN]. *)
Definition lt_number (a b : option Z) : bool :=
  match a, b with
  | Some x, Some y => x <? y
  | _, _ => false
  end.

Definition sub_number (a b : option Z) : option Z :=
  match a, b with
  | Some x, Some y => Some (x - y)
  | _, _ => None
  end.

End JS.

(* ===================================================================== *)
(** ** The page and the script state *)
(* ===================================================================== *)

(** A file chosen in the attachment input. *)
Record File := mkFile {
  file_name : string;
  file_size : Z;
  file_type : string
}.

Inductive ReadKind := AsDataURL | AsArrayBuffer.

(** A background event added to the simple-mode calendar. *)
Record BgEvent := mkBgEvent {
  ev_start : Z;
  ev_end : Z;
  ev_className : string
}.

(** What a script last put into an element ([innerHTML], [textContent],
    jQuery [html]/[text]/[append]).  Dates shown through
    [toLocaleDateString] are kept as their time value. *)
Inductive Markup :=
| Text (s : string)
| FormattedDate (t : option Z)
| Chosen (cls : string) (t : Z)
| Prompt (msg : string)
| Items (l : list string)
| Spinner
| ImageCard (f : File)
| PdfCard (f : File)
| ErrorAlert (msg : string).

(** The argument of a calendar [dateClick] callback. *)
Record ClickInfo := mkClick {
  date : Z;
  dateStr : string
}.

Record State := mkState {
  (* leave-form.js, module level: [let startDate], [let endDate] *)
  lf_startDate : option string;
  lf_endDate : option string;
  (* calendar script, inside the ready callback *)
  startDate : option Z;
  endDate : option Z;
  selectedDates : gmap string bool;
  selecting : bool;
  (* the simple calendar's events *)
  events : list BgEvent;
  (* the page, by element id *)
  value : gmap string string;
  html : gmap string Markup;
  disabled : gmap string bool;
  shown : gmap string bool;
  classes : gmap string (gset string);
  modeSwitch : bool;
  files : option File;
  (* what the host was asked to do *)
  alerts : list string;
  reads : list (File * ReadKind)
}.

Definition set_lf_startDate (v : option string) (s : State) : State :=
  mkState v (lf_endDate s) (startDate s) (endDate s) (selectedDates s)
    (selecting s) (events s) (value s) (html s) (disabled s) (shown s)
    (classes s) (modeSwitch s) (files s) (alerts s) (reads s).

Definition set_lf_endDate (v : option string) (s : State) : State :=
  mkState (lf_startDate s) v (startDate s) (endDate s) (selectedDates s)
    (selecting s) (events s) (value s) (html s) (disabled s) (shown s)
    (classes s) (modeSwitch s) (files s) (alerts s) (reads s).

Definition set_startDate (v : option Z) (s : State) : State :=
  mkState (lf_startDate s) (lf_endDate s) v (endDate s) (selectedDates s)
    (selecting s) (events s) (value s) (html s) (disabled s) (shown s)
    (classes s) (modeSwitch s) (files s) (alerts s) (reads s).

Definition set_endDate (v : option Z) (s : State) : State :=
  mkState (lf_startDate s) (lf_endDate s) (startDate s) v (selectedDates s)
    (selecting s) (events s) (value s) (html s) (disabled s) (shown s)
    (classes s) (modeSwitch s) (files s) (alerts s) (reads s).

Definition set_selectedDates (v : gmap string bool) (s : State) : State :=
  mkState (lf_startDate s) (lf_endDate s) (startDate s) (endDate s) v
    (selecting s) (events s) (value s) (html s) (disabled s) (shown s)
    (classes s) (modeSwitch s) (files s) (alerts s) (reads s).

Definition set_selecting (v : bool) (s : State) : State :=
  mkState (lf_startDate s) (lf_endDate s) (startDate s) (endDate s)
    (selectedDates s) v (events s) (value s) (html s) (disabled s) (shown s)
    (classes s) (modeSwitch s) (files s) (alerts s) (reads s).

Definition set_events (v : list BgEvent) (s : State) : State :=
  mkState (lf_startDate s) (lf_endDate s) (startDate s) (endDate s)
    (selectedDates s) (selecting s) v (value s) (html s) (disabled s) (shown s)
    (classes s) (modeSwitch s) (files s) (alerts s) (reads s).

Definition set_value (id v : string) (s : State) : State :=
  mkState (lf_startDate s) (lf_endDate s) (startDate s) (endDate s)
    (selectedDates s) (selecting s) (events s) (<[id := v]> (value s)) (html s)
    (disabled s) (shown s) (classes s) (modeSwitch s) (files s) (alerts s)
    (reads s).

Definition set_html (id : string) (v : Markup) (s : State) : State :=
  mkState (lf_startDate s) (lf_endDate s) (startDate s) (endDate s)
    (selectedDates s) (selecting s) (events s) (value s) (<[id := v]> (html s))
    (disabled s) (shown s) (classes s) (modeSwitch s) (files s) (alerts s)
    (reads s).

Definition set_disabled (id : string) (v : bool) (s : State) : State :=
  mkState (lf_startDate s) (lf_endDate s) (startDate s) (endDate s)
    (selectedDates s) (selecting s) (events s) (value s) (html s)
    (<[id := v]> (disabled s)) (shown s) (classes s) (modeSwitch s) (files s)
    (alerts s) (reads s).

Definition set_shown (id : string) (v : bool) (s : State) : State :=
  mkState (lf_startDate s) (lf_endDate s) (startDate s) (endDate s)
    (selectedDates s) (selecting s) (events s) (value s) (html s) (disabled s)
    (<[id := v]> (shown s)) (classes s) (modeSwitch s) (files s) (alerts s)
    (reads s).

Definition set_classes (id : string) (v : gset string) (s : State) : State :=
  mkState (lf_startDate s) (lf_endDate s) (startDate s) (endDate s)
    (selectedDates s) (selecting s) (events s) (value s) (html s) (disabled s)
    (shown s) (<[id := v]> (classes s)) (modeSwitch s) (files s) (alerts s)
    (reads s).

Definition set_modeSwitch (v : bool) (s : State) : State :=
  mkState (lf_startDate s) (lf_endDate s) (startDate s) (endDate s)
    (selectedDates s) (selecting s) (events s) (value s) (html s) (disabled s)
    (shown s) (classes s) v (files s) (alerts s) (reads s).

Definition set_files (v : option File) (s : State) : State :=
  mkState (lf_startDate s) (lf_endDate s) (startDate s) (endDate s)
    (selectedDates s) (selecting s) (events s) (value s) (html s) (disabled s)
    (shown s) (classes s) (modeSwitch s) v (alerts s) (reads s).

(** [alert(msg)]. *)
Definition alert (msg : string) (s : State) : State :=
  mkState (lf_startDate s) (lf_endDate s) (startDate s) (endDate s)
    (selectedDates s) (selecting s) (events s) (value s) (html s) (disabled s)
    (shown s) (classes s) (modeSwitch s) (files s) (alerts s ++ [msg])
    (reads s).

(** [reader.readAsDataURL(file)] / [reader.readAsArrayBuffer(file)]. *)
Definition start_read (f : File) (k : ReadKind) (s : State) : State :=
  mkState (lf_startDate s) (lf_endDate s) (startDate s) (endDate s)
    (selectedDates s) (selecting s) (events s) (value s) (html s) (disabled s)
    (shown s) (classes s) (modeSwitch s) (files s) (alerts s)
    (reads s ++ [(f, k)]).

(** Reading [.value] / [.val()] of a form control. *)
Definition val (s : State) (id : string) : string := default "" (value s !! id).

(** [removeClass(a).addClass(b)] on an element. *)
Definition swap_class (id a b : string) (s : State) : State :=
  set_classes id ((default ∅ (classes s !! id) ∖ {[a]}) ∪ {[b]}) s.

(** Sequencing of statements: [s |> f |> g] runs [f], then [g]. *)
Notation "s |> f" := (f s) (at level 45, left associativity, only parsing).

(** Keys naming the elements the scripts reach by a selector instead of an
    id. *)
Definition submitBtn : string := "button[type=submit]".
Definition notesInput : string := "[name=notes]".
Definition durationSpan : string := "simpleDurationDisplay span".

(** A page on which no script has written yet and nothing is selected. *)
Definition initial : State :=
  mkState None None None None ∅ false [] ∅ ∅ ∅ ∅ ∅ false None [] [].

(* ===================================================================== *)
(** ** leave-form.js *)
(* ===================================================================== *)

Module LeaveForm.

(** [file.name.split('.').pop().toLowerCase()] *)
Definition extension (name : string) : string :=
  JS.toLowerCase (JS.pop (JS.split "." name)).

(** [createFilePreview(file)], up to the start of the read. *)
Definition createFilePreview (file : File) (s : State) : State :=
  s |> set_html "attachmentPreview" Spinner
    |> start_read file
         (if String.prefix "image/" (file_type file)
          then AsDataURL else AsArrayBuffer).

(** [reader.onload] of the reader created for [file]. *)
Definition reader_onload (file : File) (s : State) : State :=
  let ext := extension (file_name file) in
  let isImage := JS.includes ["png"; "jpg"; "jpeg"; "gif"; "bmp"] ext in
  let previewHTML :=
    if isImage then ImageCard file
    else if String.eqb ext "pdf" then PdfCard file
    else Text "" in
  set_html "attachmentPreview" previewHTML s.

(** [reader.onerror]. *)
Definition reader_onerror (s : State) : State :=
  set_html "attachmentPreview" (ErrorAlert "Error loading file preview") s.

(** Click on [#clearAttachment]. *)
Definition clearAttachment_click (s : State) : State :=
  s |> set_files None |> set_html "attachmentPreview" (Text "").

(** [new Date(v)] for a variable holding [null] or a string, on a host
    whose [Date] constructor reads a string to the time [parse] gives
    ([None] for an Invalid Date). *)
Definition new_Date_with (parse : string -> option Z) (v : option string) : option Z :=
  match v with
  | Some str => parse str
  | None => Some 0
  end.

(** [updateDateRange(selectedDate)] on such a host. *)
Definition updateDateRange_with (parse : string -> option Z)
    (selectedDate : string) (s : State) : State :=
  if negb (JS.truthy_opt (lf_startDate s))
     || (JS.truthy_opt (lf_startDate s) && JS.truthy_opt (lf_endDate s))
  then
    (* Start new selection *)
    s |> set_lf_startDate (Some selectedDate)
      |> set_lf_endDate None
      |> set_value "simpleDateInput" selectedDate
      |> set_value "simpleEndDateInput" ""
      |> set_html "simpleDateDisplay" (FormattedDate (parse selectedDate))
      |> set_html "simpleEndDateDisplay" (Text "Select end date")
      |> set_html durationSpan (Text "1")
  else
    (* Complete the range *)
    let start := new_Date_with parse (lf_startDate s) in
    let end_ := parse selectedDate in
    let s1 :=
      if JS.lt_number end_ start then
        (* Swap if end is before start *)
        s |> set_lf_endDate (lf_startDate s)
          |> set_lf_startDate (Some selectedDate)
      else
        s |> set_lf_endDate (Some selectedDate) in
    let days :=
      option_map (fun diff => JS.ceil_div diff JS.msPerDay + 1)
        (JS.sub_number (new_Date_with parse (lf_endDate s1))
                       (new_Date_with parse (lf_startDate s1))) in
    s1 |> set_value "simpleDateInput" (default "" (lf_startDate s1))
       |> set_value "simpleEndDateInput" (default "" (lf_endDate s1))
       |> set_html "simpleDateDisplay"
            (FormattedDate (new_Date_with parse (lf_startDate s1)))
       |> set_html "simpleEndDateDisplay"
            (FormattedDate (new_Date_with parse (lf_endDate s1)))
       |> set_value "simpleDuration" (JS.string_of_number days)
       |> set_html durationSpan (Text (JS.string_of_number days)).

(** [updateDateRange(selectedDate)] for the strings of the calendar
    widget, which are in the date-only form and which every host reads as
    [JS.Date_parse] does. *)
Definition updateDateRange (selectedDate : string) (s : State) : State :=
  updateDateRange_with JS.Date_parse selectedDate s.

(** [validateLeaveType()] *)
Definition validateLeaveType (s : State) : State :=
  let leaveType := val s "leaveType" in
  if JS.truthy leaveType then
    s |> set_disabled submitBtn false |> set_disabled notesInput false
  else
    s |> set_disabled submitBtn true |> set_disabled notesInput true.

(** What a run of the submit listener did to the event. *)
Record Outcome := mkOutcome {
  returned : bool;
  defaultPrevented : bool
}.

Definition blocked : Outcome := mkOutcome false true.
Definition passed : Outcome := mkOutcome true false.

(** [validateForm(event)], the listener of the form's [submit] event. *)
Definition validateForm (s : State) : State * Outcome :=
  let leaveType := val s "leaveType" in
  let isAdvancedMode := modeSwitch s in
  let notes := JS.trim (val s notesInput) in
  let check_notes :=
    if negb (JS.truthy notes) then
      (alert "Please enter a reason for your leave" s, blocked)
    else
      (s, passed) in
  if negb (JS.truthy leaveType) then
    (alert "Please select a leave type" s, blocked)
  else if isAdvancedMode then
    let selectedDates := val s "datesList" in
    if negb (JS.truthy selectedDates) then
      (alert "Please select at least one date in advanced mode" s, blocked)
    else check_notes
  else
    let simpleDate := val s "simpleDatePicker" in
    if negb (JS.truthy simpleDate) then
      (alert "Please select a date" s, blocked)
    else check_notes.

(** The [change] listener of [#attachmentInput]; the input already holds
    the user's choice ([files s]) when it runs. *)
Definition attachmentInput_change (s : State) : State :=
  match files s with
  | Some file =>
      let ext := extension (file_name file) in
      (* Validate file type *)
      if negb (JS.includes [".pdf"; ".png"; ".jpg"; ".jpeg"; ".gif"; ".bmp"]
                 ("." +:+ ext))
      then
        s |> alert "Invalid file type. Please upload a PDF or image file."
          |> set_files None
      (* Validate file size (max 10MB) *)
      else if 10 * 1024 * 1024 <? file_size file then
        s |> alert "File is too large. Maximum size is 10MB."
          |> set_files None
      else
        createFilePreview file s
  | None => s
  end.

(** The [change] listener of [#modeSwitch] registered by this script. *)
Definition modeSwitch_change (s : State) : State :=
  if modeSwitch s then
    s |> set_shown "simple-mode" false |> set_shown "advanced-mode" true
  else
    s |> set_shown "advanced-mode" false |> set_shown "simple-mode" true.

End LeaveForm.

(* ===================================================================== *)
(** ** The calendar script *)
(* ===================================================================== *)

Module Calendar.

(** Truthiness of a variable holding [null] or a [Date] object. *)
Definition truthy {A} (o : option A) : bool :=
  match o with Some _ => true | None => false end.

(** [selectedDates.has(k)] *)
Definition has (m : gmap string bool) (k : string) : bool := truthy (m !! k).

(** [[...selectedDates.keys()]]; the order is immaterial to [sort]. *)
Definition keys (m : gmap string bool) : list string := (map_to_list m).*1.

(** [validateForm()], which enables or disables the submit button. *)
Definition validateForm (s : State) : State :=
  let leaveType := val s "leaveType" in
  let isAdvanced := modeSwitch s in
  let hasValidDates :=
    if isAdvanced then (0 <? size (selectedDates s))%nat
    else truthy (startDate s) && truthy (endDate s) in
  set_disabled submitBtn (negb (JS.truthy leaveType) || negb hasValidDates) s.

(** [highlightRange()] *)
Definition highlightRange (s : State) : State :=
  let s := s |> set_selecting true |> set_events [] in
  let s :=
    match startDate s with
    | Some start =>
        let s := set_events
                   (events s ++ [mkBgEvent start (start + 24*60*60*1000) "selected-start"]) s in
        match endDate s with
        | Some end_ =>
            set_events
              (events s ++ [mkBgEvent start (end_ + 24*60*60*1000) "selected-range"]) s
        | None => s
        end
    | None => s
    end in
  set_selecting false s.

(** [updateDateDisplay(start, end)] *)
Definition updateDateDisplay (start end_ : option Z) (s : State) : State :=
  let s :=
    match start with
    | Some t =>
        s |> set_value "simpleDateInput" (JS.toISODate t)
          |> set_html "simpleDateDisplay" (Chosen "text-success" t)
    | None =>
        s |> set_value "simpleDateInput" ""
          |> set_html "simpleDateDisplay" (Prompt "Select start date")
    end in
  match end_ with
  | Some e =>
      (* Calculate duration *)
      let days := JS.ceil_div (e - default 0 start) (1000 * 60 * 60 * 24) + 1 in
      s |> set_value "simpleEndDateInput" (JS.toISODate e)
        |> set_html "simpleEndDateDisplay" (Chosen "text-danger" e)
        |> set_value "simpleDuration" (JS.string_of_Z days)
        |> set_html durationSpan (Text (JS.string_of_Z days))
        |> swap_class "simpleDurationDisplay" "alert-light" "alert-primary"
  | None =>
      s |> set_value "simpleEndDateInput" ""
        |> set_html "simpleEndDateDisplay" (Prompt "Select end date")
        |> set_html durationSpan (Text "0")
        |> swap_class "simpleDurationDisplay" "alert-primary" "alert-light"
  end.

(** [dateClick] of the simple-mode calendar; [today] is the local midnight
    the callback computes from the clock. *)
Definition simple_dateClick (today : Z) (info : ClickInfo) (s : State) : State :=
  let clickedDate := date info in
  (* Don't allow selecting dates in the past *)
  if clickedDate <? today then s
  else
    let s :=
      if negb (truthy (startDate s))
         || (truthy (startDate s) && truthy (endDate s))
      then
        (* First click - set start date *)
        s |> set_startDate (Some clickedDate)
          |> set_endDate None
          |> set_value "simpleEndDateInput" ""
          |> set_value "simpleDateInput" (JS.toISODate clickedDate)
          |> updateDateDisplay (Some clickedDate) None
          |> highlightRange
          |> set_html "simpleEndDateDisplay" (Prompt "Now select end date")
      else
        (* Second click - set end date *)
        let s :=
          if clickedDate <? default 0 (startDate s) then
            s |> set_endDate (startDate s) |> set_startDate (Some clickedDate)
          else
            s |> set_endDate (Some clickedDate) in
        s |> set_value "simpleDateInput" (JS.toISODate (default 0 (startDate s)))
          |> set_value "simpleEndDateInput" (JS.toISODate (default 0 (endDate s)))
          |> updateDateDisplay (startDate s) (endDate s)
          |> highlightRange in
    validateForm s.

(** [updateSelectedDatesDisplay()] *)
Definition updateSelectedDatesDisplay (s : State) : State :=
  let datesList := JS.sort (keys (selectedDates s)) in
  s |> set_value "dates" (JS.join ";" datesList)
    |> set_html "selectedDatesList" (Items datesList)
    |> set_shown "noDateSelectedMessage" (negb (0 <? length datesList)%nat).

(** [dateClick] of the advanced-mode calendar. *)
Definition advanced_dateClick (info : ClickInfo) (s : State) : State :=
  let dateStr := dateStr info in
  if negb (has (selectedDates s) dateStr) then
    s |> set_selectedDates (<[dateStr := true]> (selectedDates s))
      |> updateSelectedDatesDisplay
      |> validateForm
  else s.

(** [clearDateSelection()] *)
Definition clearDateSelection (s : State) : State :=
  s |> set_startDate None
    |> set_endDate None
    |> updateDateDisplay None None
    |> set_events [].

(** The [change] handler of [#modeSwitch] registered by this script. *)
Definition modeSwitch_change (s : State) : State :=
  let isAdvanced := modeSwitch s in
  let s := s |> set_shown "simple-mode" (negb isAdvanced)
             |> set_shown "advanced-mode" isAdvanced in
  (* Reset the other mode *)
  let s :=
    if isAdvanced then clearDateSelection s
    else s |> set_selectedDates ∅ |> updateSelectedDatesDisplay in
  validateForm s.

(** [window.removeDate(date)] *)
Definition removeDate (d : string) (s : State) : State :=
  s |> set_selectedDates (delete d (selectedDates s))
    |> updateSelectedDatesDisplay
    |> validateForm.

End Calendar.

(* ===================================================================== *)
(** ** The drag-feedback script *)
(* ===================================================================== *)

Module DragFeedback.

(** The script's variable [isDragging] and the day cells of the simple
    calendar that carry the class [selecting]; a cell is named by a
    number. *)
Record Drag := mkDrag {
  isDragging : bool;
  selectingCells : gset nat
}.

(** [mousedown] on the calendar; [dayEl] is
    [e.target.closest('.fc-day')], absent when the press is not inside a
    day cell. *)
Definition mousedown (dayEl : option nat) (d : Drag) : Drag :=
  match dayEl with
  | Some el => mkDrag true (selectingCells d ∪ {[el]})
  | None => d
  end.

(** [mousemove] on the calendar. *)
Definition mousemove (dayEl : option nat) (d : Drag) : Drag :=
  if negb (isDragging d) then d
  else
    match dayEl with
    | Some el =>
        (* Remove selecting class from all days but this one, then add it *)
        mkDrag (isDragging d)
          (filter (fun c => c = el) (selectingCells d) ∪ {[el]})
    | None => d
    end.

(** [mouseup] anywhere in the document. *)
Definition mouseup (d : Drag) : Drag :=
  if negb (isDragging d) then d
  else mkDrag false ∅.

Inductive MouseEvent :=
| Down (dayEl : option nat)
| Move (dayEl : option nat)
| Up.

Definition handle (e : MouseEvent) (d : Drag) : Drag :=
  match e with
  | Down el => mousedown el d
  | Move el => mousemove el d
  | Up => mouseup d
  end.

Definition handle_all (es : list MouseEvent) (d : Drag) : Drag :=
  fold_left (fun d e => handle e d) es d.

(** No drag in progress and no cell marked. *)
Definition idle : Drag := mkDrag false ∅.

(** Outside a drag no cell is marked. *)
Definition no_stale_mark (d : Drag) : Prop :=
  isDragging d = false -> selectingCells d = ∅.

End DragFeedback.

(* ===================================================================== *)
(** ** Events of the page *)
(* ===================================================================== *)

(** What can happen to the page.  Each user action first changes the
    control it acts on, as the browser does, and then runs the listeners
    the scripts registered for it.  The registrations written after the
    ready callback of the calendar script (of [validateForm] on a change of
    the leave type and on input in the notes) stand outside the scope of
    the validator defined in that callback; typing in the notes therefore
    runs no listener here. *)
Inductive Event :=
| SimpleDateClick (today : Z) (info : ClickInfo)
| AdvancedDateClick (info : ClickInfo)
| RemoveDate (d : string)
| ToggleMode
| ClearDates
| LeaveTypeChange (v : string)
| NotesInput (v : string)
| ChooseFile (f : option File)
| ClearAttachment
| ReaderLoad (f : File)
| ReaderError
| Submit.

(** Flipping the mode switch: the box changes, then both [change]
    listeners run. *)
Definition toggle_mode (s : State) : State :=
  s |> set_modeSwitch (negb (modeSwitch s))
    |> LeaveForm.modeSwitch_change
    |> Calendar.modeSwitch_change.

Definition step (e : Event) (s : State) : State :=
  match e with
  | SimpleDateClick today info => Calendar.simple_dateClick today info s
  | AdvancedDateClick info => Calendar.advanced_dateClick info s
  | RemoveDate d => Calendar.removeDate d s
  | ToggleMode => toggle_mode s
  | ClearDates => Calendar.clearDateSelection s
  | LeaveTypeChange v => s |> set_value "leaveType" v |> LeaveForm.validateLeaveType
  | NotesInput v => set_value notesInput v s
  | ChooseFile f => s |> set_files f |> LeaveForm.attachmentInput_change
  | ClearAttachment => LeaveForm.clearAttachment_click s
  | ReaderLoad f => LeaveForm.reader_onload f s
  | ReaderError => LeaveForm.reader_onerror s
  | Submit => fst (LeaveForm.validateForm s)
  end.

(** Running a list of events, first to last. *)
Definition run (es : list Event) (s : State) : State :=
  fold_left (fun s e => step e s) es s.

(** The range selection and the set selection held by the calendar
    script. *)
Definition range_selection (s : State) : option Z * option Z :=
  (startDate s, endDate s).

Definition set_selection (s : State) : gmap string bool := selectedDates s.

(** The submit button accepts clicks. *)
Definition submit_enabled (s : State) : bool :=
  negb (default false (disabled s !! submitBtn)).

(* ===================================================================== *)
(** ** Notions the properties are stated with *)
(* ===================================================================== *)

(** A leave type is selected. *)
Definition leaveTypeSelected (s : State) : bool := JS.truthy (val s "leaveType").

(** The date selection is valid for the current mode: both ends of the
    range in simple mode, at least one date in advanced mode. *)
Definition selectionValid (s : State) : bool :=
  if modeSwitch s then negb (Nat.eqb (size (selectedDates s)) 0)
  else Calendar.truthy (startDate s) && Calendar.truthy (endDate s).

(** The notes are non-empty after trimming. *)
Definition notesNonEmpty (s : State) : bool := JS.truthy (JS.trim (val s notesInput)).

(** The accepted extensions, as the specification lists them. *)
Definition accepted_extensions : list string :=
  ["pdf"; "png"; "jpg"; "jpeg"; "gif"; "bmp"].

(** The size limit, in bytes. *)
Definition max_file_size : Z := 10485760.

Definition file_passes (f : File) : bool :=
  JS.includes accepted_extensions (LeaveForm.extension (file_name f))
  && (file_size f <=? max_file_size).

(** No file chosen, or the chosen file passed validation. *)
Definition attachmentValid (s : State) : bool :=
  match files s with
  | Some f => file_passes f
  | None => true
  end.

(** The predicate the specification gives for the submit control. *)
Definition spec_canSubmit (s : State) : bool :=
  leaveTypeSelected s && selectionValid s && notesNonEmpty s && attachmentValid s.

(** The field the submit listener consults for the date of the current
    mode. *)
Definition date_field (s : State) : string :=
  if modeSwitch s then val s "datesList" else val s "simpleDatePicker".

(** Everything the scripts store, that is the whole state apart from the
    log of alerts, is the same in [s] and [s']. *)
Definition stored_state_unchanged (s s' : State) : Prop :=
  lf_startDate s' = lf_startDate s /\ lf_endDate s' = lf_endDate s
  /\ range_selection s' = range_selection s
  /\ set_selection s' = set_selection s
  /\ selecting s' = selecting s /\ events s' = events s
  /\ value s' = value s /\ html s' = html s
  /\ disabled s' = disabled s /\ shown s' = shown s
  /\ classes s' = classes s /\ modeSwitch s' = modeSwitch s
  /\ files s' = files s /\ reads s' = reads s.

(** The hidden [dates] field exports the set selection: sorted ascending,
    without duplicates, joined by [;]. *)
Definition dates_exported (s : State) : Prop :=
  exists l : list string,
    val s "dates" = JS.join ";" l
    /\ Sorted JS.str_le l
    /\ NoDup l
    /\ forall d, d ∈ l <-> is_Some (selectedDates s !! d).

(** A string variable of [updateDateRange] and a [Date] variable of the
    calendar callback hold the same day: both [null], or the string parses
    to the [Date]'s time value shifted by the zone offset [off]. *)
Definition same_date (off : Z) (str : option string) (d : option Z) : Prop :=
  match str, d with
  | None, None => True
  | Some x, Some t => JS.Date_parse x = Some (t + off)
  | _, _ => False
  end.

(** The range state of the two scripts agrees. *)
Definition ranges_agree (off : Z) (s1 s2 : State) : Prop :=
  same_date off (lf_startDate s1) (startDate s2)
  /\ same_date off (lf_endDate s1) (endDate s2)
  /\ val s1 "simpleDuration" = val s2 "simpleDuration".

(** A click the calendar may deliver: not before [today], and its [Date]
    and its string name the same day. *)
Definition well_formed_click (off : Z) (c : Z * ClickInfo) : Prop :=
  fst c <= date (snd c)
  /\ JS.Date_parse (dateStr (snd c)) = Some (date (snd c) + off).

(** Feeding the clicks to [updateDateRange] ... *)
Definition run_updateDateRange (cs : list (Z * ClickInfo)) (s : State) : State :=
  fold_left (fun s c => LeaveForm.updateDateRange (dateStr (snd c)) s) cs s.

(** ... and to the calendar's [dateClick]. *)
Definition run_dateClick (cs : list (Z * ClickInfo)) (s : State) : State :=
  fold_left (fun s c => Calendar.simple_dateClick (fst c) (snd c) s) cs s.

(** The range selection is well formed: an end only together with a start,
    and not before it. *)
Definition range_ok (s : State) : Prop :=
  match startDate s, endDate s with
  | Some a, Some b => a <= b
  | None, Some _ => False
  | _, None => True
  end.

(** The background events that show a range selection: the start day, and
    for a complete range the days from start to end. *)
Definition markers_of (start end_ : option Z) : list BgEvent :=
  match start with
  | Some a =>
      mkBgEvent a (a + JS.msPerDay) "selected-start"
      :: match end_ with
         | Some b => [mkBgEvent a (b + JS.msPerDay) "selected-range"]
         | None => []
         end
  | None => []
  end.

(** The calendar shows the current range selection and nothing else, and
    the redraw guard is down. *)
Definition markers_in_sync (s : State) : Prop :=
  events s = markers_of (startDate s) (endDate s) /\ selecting s = false.

(** The submit button reflects the current leave type and selection. *)
Definition button_up_to_date (s : State) : Prop :=
  submit_enabled s = leaveTypeSelected s && selectionValid s.

(** The events whose handlers end by running the enabling validator. *)
Definition revalidates (e : Event) : bool :=
  match e with
  | SimpleDateClick _ _ | AdvancedDateClick _ | RemoveDate _ | ToggleMode => true
  | _ => false
  end.

(** The two messages of the attachment input. *)
Definition type_message : string :=
  "Invalid file type. Please upload a PDF or image file.".

Definition size_message : string :=
  "File is too large. Maximum size is 10MB.".

(** The card [reader.onload] puts into the preview area for [f]. *)
Definition is_card (f : File) (m : option Markup) : Prop :=
  m = Some (ImageCard f) \/ m = Some (PdfCard f).

(** The string has no dot. *)
Fixpoint dotless (s : string) : bool :=
  match s with
  | EmptyString => true
  | String c s' => negb (Ascii.eqb c ".") && dotless s'
  end.

(** A frame step: [p (f x)] is [p x] whenever that holds by computation
    for every [x]. *)
Ltac frame1 p :=
  match goal with
  | |- context [p (?f ?x)] =>
      let H := fresh "F" in
      assert (H : forall y, p (f y) = p y) by (intro; reflexivity);
      rewrite (H x); clear H
  end.

Ltac frame p := repeat frame1 p.

(** *** Sample data *)

(** A click on the day cell of the ISO date [str], in a zone at UTC. *)
Definition click_on (str : string) : ClickInfo :=
  mkClick (default 0 (JS.Date_parse str)) str.

Definition jan1 : ClickInfo := click_on "2024-01-01".
Definition jan2 : ClickInfo := click_on "2024-01-02".
Definition jan5 : ClickInfo := click_on "2024-01-05".

(** A leave type and the range 1 to 5 January 2024 chosen on 1 January;
    the notes are still empty. *)
Definition range_chosen : State :=
  run [LeaveTypeChange "annual";
       SimpleDateClick (date jan1) jan1;
       SimpleDateClick (date jan1) jan5] initial.

(** Only a leave type chosen. *)
Definition type_chosen : State := run [LeaveTypeChange "annual"] initial.

(** Clicks on 2 and 4 November 2024 as the widget delivers them in a zone
    that leaves daylight saving time on 3 November (America/New_York): the
    [Date]s are the local midnights, 04:00 UTC before the change and 05:00
    UTC after it. *)
Definition hour : Z := 60 * 60 * 1000.
Definition nov2_ny : ClickInfo := mkClick 1730520000000 "2024-11-02".
Definition nov4_ny : ClickInfo := mkClick 1730696400000 "2024-11-04".

(** A click on 5 January 2024 as delivered in a zone eight hours east of
    UTC: local midnight is 16:00 UTC of the day before. *)
Definition jan5_utc8 : ClickInfo := mkClick (date jan5 - 8 * hour) "2024-01-05".

Definition photo : File := mkFile "Trip.Photo.JPG" 10485760 "image/jpeg".

Definition big_pdf : File := mkFile "scan.pdf" (11 * 1024 * 1024) "application/pdf".
Definition script_file : File := mkFile "run.EXE" 2048 "application/octet-stream".

(** The UTF-8 encoding of a code point below U+10000. *)
Definition utf8 (cp : Z) : string :=
  let byte (n : Z) := ascii_of_N (Z.to_N n) in
  if cp <? 128 then String (byte cp) ""
  else if cp <? 2048 then
    String (byte (192 + cp / 64)) (String (byte (128 + cp mod 64)) "")
  else
    String (byte (224 + cp / 4096))
      (String (byte (128 + (cp / 64) mod 64)) (String (byte (128 + cp mod 64)) "")).

(** The code points that the language counts as white space or as a line
    terminator, which are those [trim] removes. *)
Definition white_space : list Z :=
  [9; 10; 11; 12; 13; 32; 160; 5760;
   8192; 8193; 8194; 8195; 8196; 8197; 8198; 8199; 8200; 8201; 8202;
   8232; 8233; 8239; 8287; 12288; 65279].

Definition is_white_space (cp : Z) : bool := existsb (Z.eqb cp) white_space.

(** [p] holds of the [n] code points from [cp] on. *)
Fixpoint all_from (cp : Z) (n : nat) (p : Z -> bool) : bool :=
  match n with
  | O => true
  | S n' => p cp && all_from (cp + 1) n' p
  end.

(** Around the text [a b], and by itself, the character [cp] is removed by
    [JS.trim] if it is white space, and kept if it is not. *)
Definition trims_as_white_space (cp : Z) : bool :=
  let w := utf8 cp in
  let s := w +:+ "a b" +:+ w in
  if is_white_space cp
  then String.eqb (JS.trim s) "a b" && String.eqb (JS.trim w) ""
  else String.eqb (JS.trim s) s.

(** White space beyond ASCII, as the bytes of its UTF-8 encoding: a
    no-break space (U+00A0) and an ideographic space (U+3000). *)
Definition nbsp : string := String "194" (String "160" "").
Definition ideographic_space : string :=
  String "227" (String "128" (String "128" "")).


(** The same with notes that hold white space only: a no-break space, a
    blank and an ideographic space. *)
Definition blank_notes : State :=
  set_value "simpleDatePicker" "2024-01-05"
    (run [LeaveTypeChange "annual";
          NotesInput (nbsp +:+ " " +:+ ideographic_space)] initial).

(* ===================================================================== *)
(** ** Mode switch *)
(* ===================================================================== *)

(** C1 (as the code has it): flipping the mode switch resets the selection
    of the mode being left and keeps the selection of the mode being
    entered; flipping it twice in a row leaves both selections empty. *)
Theorem toggle_mode_resets_mode_left (s : State) :
  range_selection (toggle_mode s)
    = (if modeSwitch s then range_selection s else (None, None))
  /\ set_selection (toggle_mode s)
    = (if modeSwitch s then ∅ else set_selection s)
  /\ range_selection (toggle_mode (toggle_mode s)) = (None, None)
  /\ set_selection (toggle_mode (toggle_mode s)) = ∅.
Proof.
  unfold toggle_mode, range_selection, set_selection,
    Calendar.modeSwitch_change, LeaveForm.modeSwitch_change.
  destruct (modeSwitch s) eqn:E; cbn; rewrite ?E; cbn; auto.
Qed.

(** C1, counterexample: with the range 1 to 5 January chosen in simple
    mode, one flip of the switch (and so two flips as well) loses the
    range; with a date chosen in advanced mode, one flip loses the date. *)
Lemma toggle_mode_loses_selection :
  range_selection range_chosen = (Some (date jan1), Some (date jan5))
  /\ range_selection (toggle_mode range_chosen) = (None, None)
  /\ range_selection (toggle_mode (toggle_mode range_chosen)) = (None, None)
  /\ size (set_selection (run [ToggleMode; AdvancedDateClick jan1] initial)) = 1%nat
  /\ size (set_selection
             (toggle_mode (run [ToggleMode; AdvancedDateClick jan1] initial))) = 0%nat.
Proof. vm_compute. repeat split. Qed.

(* ===================================================================== *)
(** ** The validators that enable the submit button *)
(* ===================================================================== *)

Lemma submit_enabled_set_disabled (b : bool) (s : State) :
  submit_enabled (set_disabled submitBtn b s) = negb b.
Proof.
  unfold submit_enabled, set_disabled; cbn.
  now rewrite lookup_insert_eq.
Qed.

Lemma submit_enabled_set_notes_disabled (b : bool) (s : State) :
  submit_enabled (set_disabled notesInput b s) = submit_enabled s.
Proof.
  unfold submit_enabled, set_disabled; cbn.
  now rewrite lookup_insert_ne.
Qed.

(** C2 (as the code has it): after [validateForm] has run, the submit
    button is enabled exactly when a leave type is selected and the date
    selection is valid for the current mode; after [validateLeaveType] has
    run, exactly when a leave type is selected.  Neither reads the notes or
    the attachment. *)
Theorem submit_enabled_after_validation (s : State) :
  (submit_enabled (Calendar.validateForm s) = true
     <-> leaveTypeSelected s = true /\ selectionValid s = true)
  /\ (submit_enabled (LeaveForm.validateLeaveType s) = true
     <-> leaveTypeSelected s = true).
Proof.
  split.
  - unfold Calendar.validateForm. rewrite submit_enabled_set_disabled.
    unfold leaveTypeSelected, selectionValid.
    destruct (JS.truthy (val s "leaveType")); cbn.
    + destruct (modeSwitch s).
      * destruct (size (selectedDates s)); cbn; intuition congruence.
      * destruct (Calendar.truthy (startDate s) && Calendar.truthy (endDate s));
          cbn; intuition congruence.
    + intuition congruence.
  - unfold LeaveForm.validateLeaveType, leaveTypeSelected.
    destruct (JS.truthy (val s "leaveType"));
      rewrite submit_enabled_set_notes_disabled, submit_enabled_set_disabled;
      cbn; intuition congruence.
Qed.

(** C2, counterexample: with a leave type and a complete range chosen and
    the notes empty, the last validation left the button enabled; and right
    after a leave type is chosen the button is enabled although no date is
    selected. *)
Lemma submit_enabled_without_notes_or_dates :
  (submit_enabled range_chosen = true
   /\ notesNonEmpty range_chosen = false
   /\ spec_canSubmit range_chosen = false)
  /\ (submit_enabled type_chosen = true
   /\ selectionValid type_chosen = false
   /\ spec_canSubmit type_chosen = false).
Proof. vm_compute. repeat split. Qed.

(** C9 (as the code has it): a run of [validateForm] changes the disabled
    state of the submit button and nothing else; a run of
    [validateLeaveType] changes the disabled state of the submit button and
    of the notes input, both to the same value, and nothing else. *)
Theorem validators_frame (s : State) :
  (exists b, Calendar.validateForm s = set_disabled submitBtn b s)
  /\ (exists b, LeaveForm.validateLeaveType s
                = set_disabled notesInput b (set_disabled submitBtn b s)).
Proof.
  split.
  - unfold Calendar.validateForm. eauto.
  - unfold LeaveForm.validateLeaveType.
    destruct (JS.truthy (val s "leaveType")); eauto.
Qed.

(** Setting the disabled state of the submit button touches no other
    element and no script variable. *)
Lemma set_disabled_submit_frame (b : bool) (s : State) :
  let s' := set_disabled submitBtn b s in
  (forall id, id <> submitBtn -> disabled s' !! id = disabled s !! id)
  /\ value s' = value s /\ html s' = html s /\ shown s' = shown s
  /\ classes s' = classes s /\ files s' = files s
  /\ range_selection s' = range_selection s
  /\ set_selection s' = set_selection s
  /\ alerts s' = alerts s /\ reads s' = reads s /\ events s' = events s.
Proof.
  cbn. repeat split; try reflexivity.
  intros id Hid. now rewrite lookup_insert_ne.
Qed.

(** C9, counterexample: on a page where nothing is disabled yet and no
    leave type is chosen, [validateLeaveType] disables the notes input. *)
Lemma validateLeaveType_disables_notes :
  disabled initial !! notesInput = None
  /\ disabled (LeaveForm.validateLeaveType initial) !! notesInput = Some true
  /\ ~ (exists b, LeaveForm.validateLeaveType initial
                  = set_disabled submitBtn b initial).
Proof.
  split; [reflexivity|]. split; [reflexivity|].
  intros [b H].
  apply (f_equal (fun s => disabled s !! notesInput)) in H.
  vm_compute in H. destruct b; discriminate H.
Qed.

(* ===================================================================== *)
(** ** Clicks on past dates *)
(* ===================================================================== *)

(** The simple calendar ignores a click on a date before today. *)
Lemma simple_dateClick_past (today : Z) (info : ClickInfo) (s : State) :
  date info < today -> Calendar.simple_dateClick today info s = s.
Proof.
  intros H. unfold Calendar.simple_dateClick.
  apply Z.ltb_lt in H. now rewrite H.
Qed.

(** The advanced calendar's callback does not look at today at all: a
    date that is not selected yet is added, whenever it lies. *)
Lemma advanced_dateClick_adds (info : ClickInfo) (s : State) :
  selectedDates s !! dateStr info = None ->
  selectedDates (Calendar.advanced_dateClick info s) !! dateStr info = Some true.
Proof.
  intros H. unfold Calendar.advanced_dateClick, Calendar.has.
  rewrite H. cbn. now rewrite lookup_insert_eq.
Qed.

(** C3, evaluated: on 2 January 2024 a click on 1 January in the advanced
    calendar selects that date and writes it to the [dates] field. *)
Theorem advanced_dateClick_accepts_past_date :
  date jan1 < date jan2
  /\ selectedDates (step (AdvancedDateClick jan1) initial) !! "2024-01-01" = Some true
  /\ val (step (AdvancedDateClick jan1) initial) "dates" = "2024-01-01"
  /\ step (SimpleDateClick (date jan2) jan1) initial = initial.
Proof. vm_compute. repeat split. Qed.

(* ===================================================================== *)
(** ** Frame rules of the state updates *)
(* ===================================================================== *)

Create Rewrite HintDb frame.

(** Each update leaves the components it does not name as they were.  The
    rules are collected in the rewrite base [frame]. *)

Lemma selectedDates_set_lf_startDate (v : option string) (s : State) :
  selectedDates (set_lf_startDate v s) = selectedDates s.
Proof. reflexivity. Qed.

Lemma selectedDates_set_lf_endDate (v : option string) (s : State) :
  selectedDates (set_lf_endDate v s) = selectedDates s.
Proof. reflexivity. Qed.

Lemma selectedDates_set_startDate (v : option Z) (s : State) :
  selectedDates (set_startDate v s) = selectedDates s.
Proof. reflexivity. Qed.

Lemma selectedDates_set_endDate (v : option Z) (s : State) :
  selectedDates (set_endDate v s) = selectedDates s.
Proof. reflexivity. Qed.

Lemma selectedDates_set_selecting (v : bool) (s : State) :
  selectedDates (set_selecting v s) = selectedDates s.
Proof. reflexivity. Qed.

Lemma selectedDates_set_events (v : list BgEvent) (s : State) :
  selectedDates (set_events v s) = selectedDates s.
Proof. reflexivity. Qed.

Lemma selectedDates_set_value (id v : string) (s : State) :
  selectedDates (set_value id v s) = selectedDates s.
Proof. reflexivity. Qed.

Lemma selectedDates_set_html (id : string) (v : Markup) (s : State) :
  selectedDates (set_html id v s) = selectedDates s.
Proof. reflexivity. Qed.

Lemma selectedDates_set_disabled (id : string) (v : bool) (s : State) :
  selectedDates (set_disabled id v s) = selectedDates s.
Proof. reflexivity. Qed.

Lemma selectedDates_set_shown (id : string) (v : bool) (s : State) :
  selectedDates (set_shown id v s) = selectedDates s.
Proof. reflexivity. Qed.

Lemma selectedDates_swap_class (id a b : string) (s : State) :
  selectedDates (swap_class id a b s) = selectedDates s.
Proof. reflexivity. Qed.

Lemma selectedDates_set_modeSwitch (v : bool) (s : State) :
  selectedDates (set_modeSwitch v s) = selectedDates s.
Proof. reflexivity. Qed.

Lemma val_set_lf_startDate (v : option string) (s : State) (k : string) :
  val (set_lf_startDate v s) k = val s k.
Proof. reflexivity. Qed.

Lemma val_set_lf_endDate (v : option string) (s : State) (k : string) :
  val (set_lf_endDate v s) k = val s k.
Proof. reflexivity. Qed.

Lemma val_set_startDate (v : option Z) (s : State) (k : string) :
  val (set_startDate v s) k = val s k.
Proof. reflexivity. Qed.

Lemma val_set_endDate (v : option Z) (s : State) (k : string) :
  val (set_endDate v s) k = val s k.
Proof. reflexivity. Qed.

Lemma val_set_selectedDates (v : gmap string bool) (s : State) (k : string) :
  val (set_selectedDates v s) k = val s k.
Proof. reflexivity. Qed.

Lemma val_set_selecting (v : bool) (s : State) (k : string) :
  val (set_selecting v s) k = val s k.
Proof. reflexivity. Qed.

Lemma val_set_events (v : list BgEvent) (s : State) (k : string) :
  val (set_events v s) k = val s k.
Proof. reflexivity. Qed.

Lemma val_set_html (id : string) (v : Markup) (s : State) (k : string) :
  val (set_html id v s) k = val s k.
Proof. reflexivity. Qed.

Lemma val_set_disabled (id : string) (v : bool) (s : State) (k : string) :
  val (set_disabled id v s) k = val s k.
Proof. reflexivity. Qed.

Lemma val_set_shown (id : string) (v : bool) (s : State) (k : string) :
  val (set_shown id v s) k = val s k.
Proof. reflexivity. Qed.

Lemma val_swap_class (id a b : string) (s : State) (k : string) :
  val (swap_class id a b s) k = val s k.
Proof. reflexivity. Qed.

Lemma val_set_modeSwitch (v : bool) (s : State) (k : string) :
  val (set_modeSwitch v s) k = val s k.
Proof. reflexivity. Qed.

Lemma lf_startDate_set_lf_endDate (v : option string) (s : State) :
  lf_startDate (set_lf_endDate v s) = lf_startDate s.
Proof. reflexivity. Qed.

Lemma lf_startDate_set_startDate (v : option Z) (s : State) :
  lf_startDate (set_startDate v s) = lf_startDate s.
Proof. reflexivity. Qed.

Lemma lf_startDate_set_endDate (v : option Z) (s : State) :
  lf_startDate (set_endDate v s) = lf_startDate s.
Proof. reflexivity. Qed.

Lemma lf_startDate_set_selectedDates (v : gmap string bool) (s : State) :
  lf_startDate (set_selectedDates v s) = lf_startDate s.
Proof. reflexivity. Qed.

Lemma lf_startDate_set_selecting (v : bool) (s : State) :
  lf_startDate (set_selecting v s) = lf_startDate s.
Proof. reflexivity. Qed.

Lemma lf_startDate_set_events (v : list BgEvent) (s : State) :
  lf_startDate (set_events v s) = lf_startDate s.
Proof. reflexivity. Qed.

Lemma lf_startDate_set_value (id v : string) (s : State) :
  lf_startDate (set_value id v s) = lf_startDate s.
Proof. reflexivity. Qed.

Lemma lf_startDate_set_html (id : string) (v : Markup) (s : State) :
  lf_startDate (set_html id v s) = lf_startDate s.
Proof. reflexivity. Qed.

Lemma lf_startDate_set_disabled (id : string) (v : bool) (s : State) :
  lf_startDate (set_disabled id v s) = lf_startDate s.
Proof. reflexivity. Qed.

Lemma lf_startDate_set_shown (id : string) (v : bool) (s : State) :
  lf_startDate (set_shown id v s) = lf_startDate s.
Proof. reflexivity. Qed.

Lemma lf_startDate_swap_class (id a b : string) (s : State) :
  lf_startDate (swap_class id a b s) = lf_startDate s.
Proof. reflexivity. Qed.

Lemma lf_startDate_set_modeSwitch (v : bool) (s : State) :
  lf_startDate (set_modeSwitch v s) = lf_startDate s.
Proof. reflexivity. Qed.

Lemma lf_endDate_set_lf_startDate (v : option string) (s : State) :
  lf_endDate (set_lf_startDate v s) = lf_endDate s.
Proof. reflexivity. Qed.

Lemma lf_endDate_set_startDate (v : option Z) (s : State) :
  lf_endDate (set_startDate v s) = lf_endDate s.
Proof. reflexivity. Qed.

Lemma lf_endDate_set_endDate (v : option Z) (s : State) :
  lf_endDate (set_endDate v s) = lf_endDate s.
Proof. reflexivity. Qed.

Lemma lf_endDate_set_selectedDates (v : gmap string bool) (s : State) :
  lf_endDate (set_selectedDates v s) = lf_endDate s.
Proof. reflexivity. Qed.

Lemma lf_endDate_set_selecting (v : bool) (s : State) :
  lf_endDate (set_selecting v s) = lf_endDate s.
Proof. reflexivity. Qed.

Lemma lf_endDate_set_events (v : list BgEvent) (s : State) :
  lf_endDate (set_events v s) = lf_endDate s.
Proof. reflexivity. Qed.

Lemma lf_endDate_set_value (id v : string) (s : State) :
  lf_endDate (set_value id v s) = lf_endDate s.
Proof. reflexivity. Qed.

Lemma lf_endDate_set_html (id : string) (v : Markup) (s : State) :
  lf_endDate (set_html id v s) = lf_endDate s.
Proof. reflexivity. Qed.

Lemma lf_endDate_set_disabled (id : string) (v : bool) (s : State) :
  lf_endDate (set_disabled id v s) = lf_endDate s.
Proof. reflexivity. Qed.

Lemma lf_endDate_set_shown (id : string) (v : bool) (s : State) :
  lf_endDate (set_shown id v s) = lf_endDate s.
Proof. reflexivity. Qed.

Lemma lf_endDate_swap_class (id a b : string) (s : State) :
  lf_endDate (swap_class id a b s) = lf_endDate s.
Proof. reflexivity. Qed.

Lemma lf_endDate_set_modeSwitch (v : bool) (s : State) :
  lf_endDate (set_modeSwitch v s) = lf_endDate s.
Proof. reflexivity. Qed.

#[global] Hint Rewrite selectedDates_set_lf_startDate
  selectedDates_set_lf_endDate selectedDates_set_startDate
  selectedDates_set_endDate selectedDates_set_selecting
  selectedDates_set_events selectedDates_set_value selectedDates_set_html
  selectedDates_set_disabled selectedDates_set_shown
  selectedDates_swap_class selectedDates_set_modeSwitch val_set_lf_startDate
  val_set_lf_endDate val_set_startDate val_set_endDate val_set_selectedDates
  val_set_selecting val_set_events val_set_html val_set_disabled
  val_set_shown val_swap_class val_set_modeSwitch
  lf_startDate_set_lf_endDate lf_startDate_set_startDate
  lf_startDate_set_endDate lf_startDate_set_selectedDates
  lf_startDate_set_selecting lf_startDate_set_events lf_startDate_set_value
  lf_startDate_set_html lf_startDate_set_disabled lf_startDate_set_shown
  lf_startDate_swap_class lf_startDate_set_modeSwitch
  lf_endDate_set_lf_startDate lf_endDate_set_startDate
  lf_endDate_set_endDate lf_endDate_set_selectedDates
  lf_endDate_set_selecting lf_endDate_set_events lf_endDate_set_value
  lf_endDate_set_html lf_endDate_set_disabled lf_endDate_set_shown
  lf_endDate_swap_class lf_endDate_set_modeSwitch : frame.

(* ===================================================================== *)
(** ** How the helpers act on the parts of the state *)
(* ===================================================================== *)

Lemma range_set_html (id : string) (v : Markup) (s : State) :
  range_selection (set_html id v s) = range_selection s.
Proof. reflexivity. Qed.

Lemma range_validateForm (s : State) :
  range_selection (Calendar.validateForm s) = range_selection s.
Proof. reflexivity. Qed.

Lemma range_highlightRange (s : State) :
  range_selection (Calendar.highlightRange s) = range_selection s.
Proof.
  unfold Calendar.highlightRange. cbn.
  destruct (startDate s); cbn; [destruct (endDate s)|]; reflexivity.
Qed.

Lemma range_updateDateDisplay (a b : option Z) (s : State) :
  range_selection (Calendar.updateDateDisplay a b s) = range_selection s.
Proof. destruct a, b; reflexivity. Qed.

Lemma val_set_value_eq (id v : string) (s : State) : val (set_value id v s) id = v.
Proof. unfold val, set_value; cbn. now rewrite lookup_insert_eq. Qed.

Lemma val_set_value_ne (id id' v : string) (s : State) :
  id <> id' -> val (set_value id v s) id' = val s id'.
Proof. intros H. unfold val, set_value; cbn. now rewrite lookup_insert_ne. Qed.

Lemma val_validateForm (s : State) (k : string) :
  val (Calendar.validateForm s) k = val s k.
Proof. reflexivity. Qed.

Lemma val_highlightRange (s : State) (k : string) :
  val (Calendar.highlightRange s) k = val s k.
Proof.
  unfold Calendar.highlightRange, val. cbn.
  destruct (startDate s); cbn; [destruct (endDate s)|]; reflexivity.
Qed.

(** [updateDateDisplay] writes the two date inputs, and the duration only
    when there is an end date. *)
Lemma val_updateDateDisplay_other (a b : option Z) (s : State) (k : string) :
  k <> "simpleDateInput" -> k <> "simpleEndDateInput" -> k <> "simpleDuration" ->
  val (Calendar.updateDateDisplay a b s) k = val s k.
Proof.
  intros H1 H2 H3. unfold Calendar.updateDateDisplay, swap_class, val.
  destruct a, b; cbn; repeat (rewrite lookup_insert_ne by done); reflexivity.
Qed.

Lemma val_updateDateDisplay_no_end (a : option Z) (s : State) :
  val (Calendar.updateDateDisplay a None s) "simpleDuration" = val s "simpleDuration".
Proof.
  unfold Calendar.updateDateDisplay, swap_class, val.
  destruct a; cbn; repeat (rewrite lookup_insert_ne by done); reflexivity.
Qed.

(** The duration [updateDateDisplay] writes for a complete range. *)
Lemma updateDateDisplay_duration (start end_ : Z) (s : State) :
  val (Calendar.updateDateDisplay (Some start) (Some end_) s) "simpleDuration"
  = JS.string_of_Z (JS.ceil_div (end_ - start) JS.msPerDay + 1).
Proof.
  unfold Calendar.updateDateDisplay, swap_class, val. cbn.
  now rewrite lookup_insert_eq.
Qed.

(* ===================================================================== *)
(** ** Range selection by two clicks *)
(* ===================================================================== *)

(** What a click that is not in the past does to the range selection. *)
Lemma simple_dateClick_range (today : Z) (info : ClickInfo) (s : State) :
  today <= date info ->
  range_selection (Calendar.simple_dateClick today info s)
  = match startDate s, endDate s with
    | Some start, None =>
        if date info <? start then (Some (date info), Some start)
        else (Some start, Some (date info))
    | _, _ => (Some (date info), None)
    end.
Proof.
  intros Ht. unfold Calendar.simple_dateClick.
  apply Z.ltb_ge in Ht. rewrite Ht, range_validateForm.
  destruct (startDate s) as [start|] eqn:Es; destruct (endDate s) as [e|] eqn:Ee;
    cbn [Calendar.truthy negb orb andb from_option id].
  - now rewrite range_set_html, range_highlightRange, range_updateDateDisplay.
  - rewrite range_highlightRange, range_updateDateDisplay.
    destruct (date info <? start); unfold range_selection; cbn; now rewrite ?Es.
  - now rewrite range_set_html, range_highlightRange, range_updateDateDisplay.
  - now rewrite range_set_html, range_highlightRange, range_updateDateDisplay.
Qed.

(** The duration field after the click that completes a range. *)
Lemma simple_dateClick_second_duration
    (today : Z) (info : ClickInfo) (start : Z) (s : State) :
  today <= date info ->
  startDate s = Some start -> endDate s = None ->
  val (Calendar.simple_dateClick today info s) "simpleDuration"
  = JS.string_of_Z
      (JS.ceil_div (Z.max start (date info) - Z.min start (date info)) JS.msPerDay + 1).
Proof.
  intros Ht Hs He. unfold Calendar.simple_dateClick.
  apply Z.ltb_ge in Ht. rewrite Ht, Hs, He.
  cbn [Calendar.truthy negb orb andb from_option id].
  rewrite val_validateForm, val_highlightRange.
  destruct (date info <? start) eqn:E.
  - apply Z.ltb_lt in E.
    replace (Z.max start (date info)) with start by lia.
    replace (Z.min start (date info)) with (date info) by lia.
    cbn [startDate endDate set_endDate set_startDate set_value].
    rewrite ?Hs. apply updateDateDisplay_duration.
  - apply Z.ltb_ge in E.
    replace (Z.max start (date info)) with (date info) by lia.
    replace (Z.min start (date info)) with start by lia.
    cbn [startDate endDate set_endDate set_startDate set_value].
    rewrite ?Hs. apply updateDateDisplay_duration.
Qed.

(** C4: starting from an empty range selection, clicking two dates
    [d1 < d2], neither before today, selects the range from [d1] to [d2],
    in whichever order they are clicked. *)
Theorem range_clicks_order_independent
    (today : Z) (i1 i2 : ClickInfo) (s : State) :
  today <= date i1 ->
  date i1 < date i2 ->
  range_selection s = (None, None) ->
  range_selection (run [SimpleDateClick today i1; SimpleDateClick today i2] s)
    = (Some (date i1), Some (date i2))
  /\ range_selection (run [SimpleDateClick today i2; SimpleDateClick today i1] s)
    = (Some (date i1), Some (date i2)).
Proof.
  intros Ht Hlt Hs. unfold range_selection in Hs. injection Hs as Hs He.
  assert (Ht2 : today <= date i2) by lia.
  split; cbn [run fold_left step].
  - pose proof (simple_dateClick_range today i1 s Ht) as H1.
    rewrite Hs in H1. unfold range_selection in H1. injection H1 as H1s H1e.
    rewrite (simple_dateClick_range today i2 _ Ht2), H1s, H1e.
    assert (E : (date i2 <? date i1) = false) by (apply Z.ltb_ge; lia).
    now rewrite E.
  - pose proof (simple_dateClick_range today i2 s Ht2) as H1.
    rewrite Hs in H1. unfold range_selection in H1. injection H1 as H1s H1e.
    rewrite (simple_dateClick_range today i1 _ Ht), H1s, H1e.
    assert (E : (date i1 <? date i2) = true) by (apply Z.ltb_lt; lia).
    now rewrite E.
Qed.

Lemma range_clicks_order_independent_witness :
  range_selection (run [SimpleDateClick (date jan1) jan1;
                        SimpleDateClick (date jan1) jan5] initial)
    = (Some (date jan1), Some (date jan5))
  /\ range_selection (run [SimpleDateClick (date jan1) jan5;
                           SimpleDateClick (date jan1) jan1] initial)
    = (Some (date jan1), Some (date jan5)).
Proof.
  apply (range_clicks_order_independent (date jan1) jan1 jan5 initial).
  - vm_compute. discriminate.
  - vm_compute. reflexivity.
  - reflexivity.
Defined.

(* ===================================================================== *)
(** ** Duration of a range *)
(* ===================================================================== *)

Lemma ceil_div_whole_days (k : Z) : JS.ceil_div (k * JS.msPerDay) JS.msPerDay = k.
Proof.
  unfold JS.ceil_div.
  replace (- (k * JS.msPerDay)) with ((- k) * JS.msPerDay) by lia.
  rewrite Z.div_mul by (unfold JS.msPerDay; lia). lia.
Qed.

(** [Math.ceil] rounds up: the quotient is the least number of whole days
    that covers the span. *)
Lemma ceil_div_bounds (x : Z) :
  (JS.ceil_div x JS.msPerDay - 1) * JS.msPerDay < x
  <= JS.ceil_div x JS.msPerDay * JS.msPerDay.
Proof.
  unfold JS.ceil_div.
  assert (Hd : 0 < JS.msPerDay) by (unfold JS.msPerDay; lia).
  pose proof (Z.div_mod (- x) JS.msPerDay ltac:(lia)) as Hdm.
  pose proof (Z.mod_pos_bound (- x) JS.msPerDay Hd) as Hm.
  nia.
Qed.

(** X25: a range completed by two clicks has start <= end, and the duration
    field holds [n + 1] where [n] is the span from start to end in days,
    rounded up to whole days: [k + 1], the inclusive count of days, for
    dates exactly [k] days apart. *)
Lemma range_duration_rounded_up
    (today : Z) (i1 i2 : ClickInfo) (s : State) :
  today <= date i1 ->
  date i1 <= date i2 ->
  range_selection s = (None, None) ->
  let s' := run [SimpleDateClick today i1; SimpleDateClick today i2] s in
  range_selection s' = (Some (date i1), Some (date i2))
  /\ exists n : Z,
       val s' "simpleDuration" = JS.string_of_Z (n + 1)
       /\ (n - 1) * JS.msPerDay < date i2 - date i1 <= n * JS.msPerDay
       /\ forall k, date i2 = date i1 + k * JS.msPerDay -> n = k.
Proof.
  intros Ht Hle Hs. unfold range_selection in Hs. injection Hs as Hs He.
  assert (Ht2 : today <= date i2) by lia.
  cbn [run fold_left step].
  pose proof (simple_dateClick_range today i1 s Ht) as H1.
  rewrite Hs in H1. unfold range_selection in H1. injection H1 as H1s H1e.
  split.
  - rewrite (simple_dateClick_range today i2 _ Ht2), H1s, H1e.
    assert (E : (date i2 <? date i1) = false) by (apply Z.ltb_ge; lia).
    now rewrite E.
  - exists (JS.ceil_div (date i2 - date i1) JS.msPerDay).
    rewrite (simple_dateClick_second_duration today i2 (date i1) _ Ht2 H1s H1e).
    replace (Z.max (date i1) (date i2) - Z.min (date i1) (date i2))
      with (date i2 - date i1) by lia.
    split; [reflexivity|]. split; [apply ceil_div_bounds|].
    intros k Hk.
    replace (date i2 - date i1) with (k * JS.msPerDay) by lia.
    apply ceil_div_whole_days.
Qed.

(** The range from 1 to 5 January 2024 has duration 5. *)
Example duration_jan1_jan5 :
  let s' := run [SimpleDateClick (date jan1) jan1;
                 SimpleDateClick (date jan1) jan5] initial in
  JS.toISODate (date jan1) = "2024-01-01"
  /\ JS.toISODate (date jan5) = "2024-01-05"
  /\ val s' "simpleDuration" = "5".
Proof. vm_compute. repeat split. Qed.

(** The same date clicked twice, for every date and page. *)
Lemma same_date_twice (today : Z) (i : ClickInfo) (s : State) :
  today <= date i ->
  range_selection s = (None, None) ->
  let s' := run [SimpleDateClick today i; SimpleDateClick today i] s in
  range_selection s' = (Some (date i), Some (date i))
  /\ val s' "simpleDuration" = "1".
Proof.
  intros Ht Hs. unfold range_selection in Hs. injection Hs as Hs He.
  cbn [run fold_left step].
  pose proof (simple_dateClick_range today i s Ht) as H1.
  rewrite Hs in H1. unfold range_selection in H1. injection H1 as H1s H1e.
  split.
  - rewrite (simple_dateClick_range today i _ Ht), H1s, H1e.
    now rewrite Z.ltb_irrefl.
  - rewrite (simple_dateClick_second_duration today i (date i) _ Ht H1s H1e).
    now rewrite Z.min_id, Z.max_id, Z.sub_diag.
Qed.

(** C5, evaluated: where the clocks go back between start and end, the
    two local midnights are not a whole number of days apart and the
    rounding up counts a day too many.  From 2 to 4 November 2024, three
    days inclusive, the [Date]s are 49 hours apart and the duration field
    gets 4; [updateDateRange], which computes from the date strings, gets
    3. *)
Theorem duration_across_clock_change :
  let cs := [(date nov2_ny, nov2_ny); (date nov2_ny, nov4_ny)] in
  JS.Date_parse (dateStr nov2_ny) = Some (date nov2_ny - 4 * hour)
  /\ JS.Date_parse (dateStr nov4_ny) = Some (date nov4_ny - 5 * hour)
  /\ date nov4_ny - date nov2_ny = 49 * hour
  /\ range_selection (run_dateClick cs initial)
     = (Some (date nov2_ny), Some (date nov4_ny))
  /\ val (run_dateClick cs initial) "simpleDuration" = "4"
  /\ val (run_updateDateRange cs initial) "simpleDuration" = "3".
Proof. vm_compute. repeat split. Qed.

(* ===================================================================== *)
(** ** The submit listener *)
(* ===================================================================== *)

Lemma alert_stored_state (msg : string) (s : State) :
  stored_state_unchanged s (alert msg s).
Proof. unfold stored_state_unchanged. cbn. repeat split. Qed.

(** The fuel of [JS.strip] suffices: it stops at a string that starts with
    no white space. *)
Lemma length_skip (n : nat) (s : string) :
  (String.length (JS.skip (S n) s) <= pred (String.length s))%nat.
Proof.
  revert s. induction n as [|n IH]; intros [|c s]; cbn [JS.skip String.length];
    try lia.
  specialize (IH s). cbn [JS.skip] in IH. destruct s; cbn [String.length] in *; lia.
Qed.

Lemma strip_done (width : string -> nat) (fuel : nat) (s : string) :
  width "" = 0%nat ->
  (String.length s <= fuel)%nat ->
  width (JS.strip width fuel s) = 0%nat.
Proof.
  intros H0. revert s. induction fuel as [|fuel IH]; intros s Hl; cbn [JS.strip].
  - destruct s; [exact H0|cbn in Hl; lia].
  - destruct (width s) eqn:E; [exact E|].
    apply IH. pose proof (length_skip n s). lia.
Qed.

Lemma trimStart_done (s : string) : JS.leading_space (JS.trimStart s) = 0%nat.
Proof. apply strip_done; [reflexivity|lia]. Qed.

Lemma rev_append_rev_append (s acc : string) :
  JS.rev_append (JS.rev_append s acc) "" = JS.rev_append acc s.
Proof.
  revert acc. induction s as [|c s IH]; intros acc; cbn [JS.rev_append].
  - reflexivity.
  - now rewrite IH.
Qed.

Lemma reverse_reverse (s : string) : JS.reverse (JS.reverse s) = s.
Proof. unfold JS.reverse. now rewrite rev_append_rev_append. Qed.

Lemma trimEnd_done (s : string) :
  JS.trailing_space (JS.reverse (JS.trimEnd s)) = 0%nat.
Proof.
  unfold JS.trimEnd. rewrite reverse_reverse.
  apply strip_done; [reflexivity|].
  unfold JS.reverse.
  assert (H : forall a b, String.length (JS.rev_append a b)
                          = (String.length a + String.length b)%nat).
  { induction a as [|c a IH]; intros b; cbn [JS.rev_append String.length];
      [reflexivity|]. rewrite IH. cbn [String.length]. lia. }
  rewrite H. cbn [String.length]. lia.
Qed.

(** [JS.trim] removes the white space of the language and nothing else:
    checked for every character below U+10000, at both ends of a text and
    alone. *)
Example trim_white_space_exact :
  all_from 0 (Z.to_nat 65536) trims_as_white_space = true.
Proof. vm_compute. reflexivity. Qed.

Example trim_samples :
  JS.trim "  family visit " = "family visit"
  /\ JS.trim (nbsp +:+ " " +:+ ideographic_space) = ""
  /\ nbsp = utf8 160 /\ ideographic_space = utf8 12288
  /\ JS.trim "" = "".
Proof. vm_compute. auto 6. Qed.


(** X26: when no leave type is selected, or the field the listener reads
    for the date of the current mode ([#datesList], [#simpleDatePicker]) is
    empty, or the notes are empty after trimming, the submit listener
    blocks the submission (it returns [false] and prevents the default
    action), shows exactly one message and leaves everything stored as it
    was. *)
Theorem submit_blocked_when_invalid (s : State) :
  leaveTypeSelected s = false
  \/ JS.truthy (date_field s) = false
  \/ notesNonEmpty s = false ->
  let (s', outcome) := LeaveForm.validateForm s in
  outcome = LeaveForm.blocked
  /\ (exists msg, alerts s' = (alerts s ++ [msg])%list)
  /\ stored_state_unchanged s s'.
Proof.
  intros H. unfold LeaveForm.validateForm.
  unfold leaveTypeSelected, date_field, notesNonEmpty in H.
  destruct (JS.truthy (val s "leaveType")) eqn:El; cbn [negb].
  - destruct (modeSwitch s) eqn:Em.
    + destruct (JS.truthy (val s "datesList")) eqn:Ed; cbn [negb].
      * destruct (JS.truthy (JS.trim (val s notesInput))) eqn:En; cbn [negb].
        -- destruct H as [H|[H|H]]; discriminate.
        -- split; [reflexivity|]. split; [eauto|apply alert_stored_state].
      * split; [reflexivity|]. split; [eauto|apply alert_stored_state].
    + destruct (JS.truthy (val s "simpleDatePicker")) eqn:Ed; cbn [negb].
      * destruct (JS.truthy (JS.trim (val s notesInput))) eqn:En; cbn [negb].
        -- destruct H as [H|[H|H]]; discriminate.
        -- split; [reflexivity|]. split; [eauto|apply alert_stored_state].
      * split; [reflexivity|]. split; [eauto|apply alert_stored_state].
  - split; [reflexivity|]. split; [eauto|apply alert_stored_state].
Qed.

(** With a leave type chosen, the date field filled and notes of white
    space only, it is the check of the notes that blocks. *)
Lemma submit_blocked_when_invalid_witness :
  leaveTypeSelected blank_notes = true
  /\ JS.truthy (date_field blank_notes) = true
  /\ let (s', outcome) := LeaveForm.validateForm blank_notes in
     outcome = LeaveForm.blocked
     /\ (exists msg, alerts s' = (alerts blank_notes ++ [msg])%list)
     /\ stored_state_unchanged blank_notes s'.
Proof.
  split; [reflexivity|]. split; [reflexivity|].
  apply (submit_blocked_when_invalid blank_notes).
  right. right. reflexivity.
Defined.

(** The message then is the one about the notes, and with the date field
    empty, as the scripts leave it, the one about the date. *)
Example submit_messages :
  alerts (fst (LeaveForm.validateForm blank_notes))
  = ["Please enter a reason for your leave"]
  /\ alerts (fst (LeaveForm.validateForm range_chosen))
     = ["Please select a date"].
Proof. vm_compute. auto. Qed.

(** Conversely, the listener lets the submission through, silently, when
    all three checks pass. *)
Lemma submit_passes_when_valid (s : State) :
  leaveTypeSelected s = true ->
  JS.truthy (date_field s) = true ->
  notesNonEmpty s = true ->
  LeaveForm.validateForm s = (s, LeaveForm.passed).
Proof.
  unfold leaveTypeSelected, date_field, notesNonEmpty, LeaveForm.validateForm.
  intros Hl Hd Hn. rewrite Hl, Hn. cbn.
  destruct (modeSwitch s); now rewrite Hd.
Qed.

(* ===================================================================== *)
(** ** Attachment checks *)
(* ===================================================================== *)

(** The listener tests the dotted extension against a dotted list: the
    same as testing the extension against the list of the specification. *)
Lemma dotted_extension_test (ext : string) :
  JS.includes [".pdf"; ".png"; ".jpg"; ".jpeg"; ".gif"; ".bmp"] ("." +:+ ext)
  = JS.includes accepted_extensions ext.
Proof. reflexivity. Qed.

(** C7: a chosen file whose lower-cased extension is not accepted, or whose
    size exceeds 10,485,760 bytes, is rejected within the [change]
    listener: one message is shown, the input is cleared, no read is
    started, and the preview area (like every other element) keeps its
    content, so it is not set to the loading indicator. *)
Theorem rejected_file_is_not_read (f : File) (s : State) :
  JS.includes accepted_extensions (LeaveForm.extension (file_name f)) = false
  \/ max_file_size < file_size f ->
  let s' := step (ChooseFile (Some f)) s in
  (exists msg, alerts s' = (alerts s ++ [msg])%list)
  /\ files s' = None
  /\ reads s' = reads s
  /\ html s' = html s.
Proof.
  intros H. cbn [step]. unfold LeaveForm.attachmentInput_change.
  cbn [files set_files]. rewrite dotted_extension_test.
  destruct (JS.includes accepted_extensions (LeaveForm.extension (file_name f)))
    eqn:Ei; cbn [negb].
  - destruct H as [H|H]; [discriminate|].
    unfold max_file_size in H.
    assert (E : (10 * 1024 * 1024 <? file_size f) = true) by (apply Z.ltb_lt; lia).
    rewrite E. cbn. eauto.
  - cbn. eauto.
Qed.

(** An 11 MiB PDF. *)
Lemma rejected_file_is_not_read_witness :
  let s' := step (ChooseFile (Some big_pdf)) initial in
  (exists msg, alerts s' = (alerts initial ++ [msg])%list)
  /\ files s' = None
  /\ reads s' = reads initial
  /\ html s' = html initial.
Proof.
  apply (rejected_file_is_not_read big_pdf initial).
  right. vm_compute. reflexivity.
Defined.

(** A file that passes both checks does start a read, with the loading
    indicator shown. *)
Lemma accepted_file_is_read (f : File) (s : State) :
  file_passes f = true ->
  let s' := step (ChooseFile (Some f)) s in
  html s' !! "attachmentPreview" = Some Spinner
  /\ files s' = Some f
  /\ alerts s' = alerts s
  /\ exists k, reads s' = (reads s ++ [(f, k)])%list.
Proof.
  unfold file_passes, max_file_size. intros H.
  apply andb_true_iff in H as [Hi Hs]. apply Z.leb_le in Hs.
  cbn [step]. unfold LeaveForm.attachmentInput_change.
  cbn [files set_files]. rewrite dotted_extension_test, Hi. cbn [negb].
  assert (E : (10 * 1024 * 1024 <? file_size f) = false) by (apply Z.ltb_ge; lia).
  rewrite E. unfold LeaveForm.createFilePreview. cbn.
  rewrite lookup_insert_eq. eauto.
Qed.

(** The extension is compared case-insensitively, and a wrong one is
    caught whatever the size. *)
Example exe_rejected_pdf_upper_accepted :
  LeaveForm.extension "run.EXE" = "exe"
  /\ files (step (ChooseFile (Some script_file)) initial) = None
  /\ file_passes (mkFile "Scan.PDF" 512000 "application/pdf") = true.
Proof. vm_compute. repeat split. Qed.

(* ===================================================================== *)
(** ** Export of the set selection *)
(* ===================================================================== *)

Lemma ascii_compare_lt_trans (a b c : ascii) :
  Ascii.compare a b = Lt -> Ascii.compare b c = Lt -> Ascii.compare a c = Lt.
Proof.
  unfold Ascii.compare. rewrite !N.compare_lt_iff. lia.
Qed.

Lemma ascii_compare_refl (a : ascii) : Ascii.compare a a = Eq.
Proof. unfold Ascii.compare. apply N.compare_refl. Qed.

Lemma string_compare_lt_trans (a b c : string) :
  String.compare a b = Lt -> String.compare b c = Lt -> String.compare a c = Lt.
Proof.
  revert b c. induction a as [|x a IH]; intros [|y b] [|z c]; cbn; try congruence.
  destruct (Ascii.compare x y) eqn:Exy; try discriminate.
  - apply Ascii.compare_eq_iff in Exy. subst y.
    destruct (Ascii.compare x z) eqn:Exz; try congruence. apply IH.
  - intros _.
    destruct (Ascii.compare y z) eqn:Eyz; try discriminate.
    + apply Ascii.compare_eq_iff in Eyz. subst z. now rewrite Exy.
    + intros _. now rewrite (ascii_compare_lt_trans x y z Exy Eyz).
Qed.

Lemma string_compare_refl (a : string) : String.compare a a = Eq.
Proof.
  induction a as [|x a IH]; cbn; [reflexivity|].
  now rewrite ascii_compare_refl.
Qed.

Lemma str_le_cases (a b : string) :
  JS.str_le a b <-> a = b \/ String.compare a b = Lt.
Proof.
  unfold JS.str_le, String.leb.
  destruct (String.compare a b) eqn:E.
  - apply String.compare_eq_iff in E. intuition.
  - intuition.
  - split; [discriminate|]. intros [->|H]; [|discriminate].
    rewrite string_compare_refl in E. discriminate.
Qed.

Lemma str_le_trans : Transitive JS.str_le.
Proof.
  intros a b c. rewrite !str_le_cases.
  intros [->|Hab] [->|Hbc]; auto.
  right. eapply string_compare_lt_trans; eauto.
Qed.

Lemma str_le_total : Total JS.str_le.
Proof. intros a b. apply String.leb_total. Qed.

Lemma str_le_antisym : AntiSymm eq JS.str_le.
Proof. intros a b. apply String.leb_antisym. Qed.

(** What [sort] returns: the same strings, in ascending order. *)
Lemma sort_sorted (l : list string) : Sorted JS.str_le (JS.sort l).
Proof. apply (@Sorted_merge_sort _ _ _ str_le_total). Qed.

Lemma sort_permutation (l : list string) : JS.sort l ≡ₚ l.
Proof. apply merge_sort_Permutation. Qed.

(** The sorted list does not depend on the order in which the map lists
    its keys. *)
Lemma sort_order_irrelevant (l1 l2 : list string) :
  l1 ≡ₚ l2 -> JS.sort l1 = JS.sort l2.
Proof.
  intros H.
  apply (@Sorted_unique _ JS.str_le str_le_trans str_le_antisym).
  - apply sort_sorted.
  - apply sort_sorted.
  - now rewrite !sort_permutation.
Qed.

Lemma keys_NoDup (m : gmap string bool) : NoDup (Calendar.keys m).
Proof. apply NoDup_fst_map_to_list. Qed.

Lemma elem_of_keys (m : gmap string bool) (d : string) :
  d ∈ Calendar.keys m <-> is_Some (m !! d).
Proof.
  unfold Calendar.keys. rewrite list_elem_of_fmap. split.
  - intros [[k v] [-> H]]. apply elem_of_map_to_list in H. cbn. eauto.
  - intros [v H]. exists (d, v). split; [reflexivity|].
    now apply elem_of_map_to_list.
Qed.

(** [updateSelectedDatesDisplay] makes the field an export of the
    selection, whatever it was before. *)
Lemma updateSelectedDatesDisplay_exports (s : State) :
  dates_exported (Calendar.updateSelectedDatesDisplay s).
Proof.
  exists (JS.sort (Calendar.keys (selectedDates s))).
  unfold Calendar.updateSelectedDatesDisplay, val. cbn.
  rewrite lookup_insert_eq. cbn.
  split; [reflexivity|]. split; [apply sort_sorted|].
  split.
  - rewrite sort_permutation. apply keys_NoDup.
  - intros d. rewrite sort_permutation. apply elem_of_keys.
Qed.

(** Whatever leaves the [dates] field and the selection alone keeps the
    export. *)
Lemma dates_exported_frame (s s' : State) :
  val s' "dates" = val s "dates" ->
  selectedDates s' = selectedDates s ->
  dates_exported s -> dates_exported s'.
Proof.
  intros Hv Hm [l (H1 & H2 & H3 & H4)]. exists l.
  rewrite Hv, Hm. auto.
Qed.

Lemma validateForm_keeps_export (s : State) :
  dates_exported s -> dates_exported (Calendar.validateForm s).
Proof. apply dates_exported_frame; reflexivity. Qed.

Lemma selectedDates_updateDateDisplay (a b : option Z) (s : State) :
  selectedDates (Calendar.updateDateDisplay a b s) = selectedDates s.
Proof. destruct a, b; reflexivity. Qed.

Lemma selectedDates_highlightRange (s : State) :
  selectedDates (Calendar.highlightRange s) = selectedDates s.
Proof.
  unfold Calendar.highlightRange. cbn.
  destruct (startDate s); cbn; [destruct (endDate s)|]; reflexivity.
Qed.

Lemma clearDateSelection_keeps_export (s : State) :
  dates_exported s -> dates_exported (Calendar.clearDateSelection s).
Proof.
  unfold Calendar.clearDateSelection. apply dates_exported_frame.
  - rewrite val_set_events, val_updateDateDisplay_other by done.
    now autorewrite with frame.
  - rewrite selectedDates_set_events, selectedDates_updateDateDisplay.
    now autorewrite with frame.
Qed.

Lemma simple_dateClick_keeps_export (today : Z) (info : ClickInfo) (s : State) :
  dates_exported s -> dates_exported (Calendar.simple_dateClick today info s).
Proof.
  unfold Calendar.simple_dateClick.
  destruct (date info <? today); [auto|].
  intros H. apply validateForm_keeps_export. revert H.
  destruct (negb (Calendar.truthy (startDate s))
            || Calendar.truthy (startDate s) && Calendar.truthy (endDate s)).
  - apply dates_exported_frame.
    + rewrite val_set_html, val_highlightRange.
      rewrite val_updateDateDisplay_other by done.
      rewrite !val_set_value_ne by done. now autorewrite with frame.
    + rewrite selectedDates_set_html, selectedDates_highlightRange,
        selectedDates_updateDateDisplay.
      now autorewrite with frame.
  - apply dates_exported_frame.
    + rewrite val_highlightRange.
      rewrite val_updateDateDisplay_other by done.
      rewrite !val_set_value_ne by done.
      destruct (date info <? default 0 (startDate s)); now autorewrite with frame.
    + rewrite selectedDates_highlightRange, selectedDates_updateDateDisplay.
      autorewrite with frame.
      destruct (date info <? default 0 (startDate s)); now autorewrite with frame.
Qed.

Lemma toggle_mode_keeps_export (s : State) :
  dates_exported s -> dates_exported (toggle_mode s).
Proof.
  intros H. unfold toggle_mode, Calendar.modeSwitch_change.
  apply validateForm_keeps_export.
  unfold LeaveForm.modeSwitch_change. cbn [set_modeSwitch modeSwitch].
  destruct (negb (modeSwitch s)); cbn [modeSwitch set_shown].
  - apply clearDateSelection_keeps_export. revert H.
    apply dates_exported_frame; now autorewrite with frame.
  - apply updateSelectedDatesDisplay_exports.
Qed.

(** The submit listener changes nothing but the log of alerts. *)
Lemma submit_shows_at_most_one_alert (s : State) :
  fst (LeaveForm.validateForm s) = s
  \/ exists msg, fst (LeaveForm.validateForm s) = alert msg s.
Proof.
  unfold LeaveForm.validateForm.
  destruct (JS.truthy (val s "leaveType")); cbn [negb]; [|eauto].
  destruct (modeSwitch s).
  - destruct (JS.truthy (val s "datesList")); cbn [negb]; [|eauto].
    destruct (JS.truthy (JS.trim (val s notesInput))); cbn [negb fst]; eauto.
  - destruct (JS.truthy (val s "simpleDatePicker")); cbn [negb]; [|eauto].
    destruct (JS.truthy (JS.trim (val s notesInput))); cbn [negb fst]; eauto.
Qed.

(** Every event of the page keeps the [dates] field an export of the set
    selection. *)
Lemma step_keeps_export (e : Event) (s : State) :
  dates_exported s -> dates_exported (step e s).
Proof.
  destruct e; cbn [step].
  - apply simple_dateClick_keeps_export.
  - unfold Calendar.advanced_dateClick.
    destruct (negb (Calendar.has (selectedDates s) (dateStr info))); [|auto].
    intros _. apply validateForm_keeps_export, updateSelectedDatesDisplay_exports.
  - intros _. unfold Calendar.removeDate.
    apply validateForm_keeps_export, updateSelectedDatesDisplay_exports.
  - apply toggle_mode_keeps_export.
  - apply clearDateSelection_keeps_export.
  - apply dates_exported_frame.
    + unfold LeaveForm.validateLeaveType.
      destruct (JS.truthy _); unfold val; cbn; now rewrite lookup_insert_ne.
    + unfold LeaveForm.validateLeaveType.
      destruct (JS.truthy _); reflexivity.
  - apply dates_exported_frame; [now apply val_set_value_ne|reflexivity].
  - apply dates_exported_frame;
      unfold LeaveForm.attachmentInput_change; cbn [files set_files];
      destruct f as [f|]; try reflexivity;
      destruct (negb _); try reflexivity; destruct (_ <? _); reflexivity.
  - apply dates_exported_frame; reflexivity.
  - apply dates_exported_frame; reflexivity.
  - apply dates_exported_frame; reflexivity.
  - destruct (submit_shows_at_most_one_alert s) as [E|[msg E]]; rewrite E.
    + auto.
    + apply dates_exported_frame; reflexivity.
Qed.

(** C8: from a page whose [dates] field exports the set selection (as on
    the fresh page, where both are empty), after every sequence of events,
    among them adding a date, removing a date and clearing on a mode
    switch, the field is the [;]-joined list, sorted ascending and without
    duplicates, of exactly the selected date strings. *)
Theorem dates_field_exports_selection (es : list Event) (s : State) :
  dates_exported s -> dates_exported (run es s).
Proof.
  revert s. induction es as [|e es IH]; intros s H; cbn; [assumption|].
  apply IH. now apply step_keeps_export.
Qed.

Lemma dates_field_exports_selection_witness :
  dates_exported
    (run [ToggleMode; AdvancedDateClick jan5; AdvancedDateClick jan1;
          AdvancedDateClick jan2; AdvancedDateClick jan1; RemoveDate "2024-01-02";
          ToggleMode]
       initial).
Proof.
  apply (dates_field_exports_selection _ initial).
  exists []. split; [reflexivity|]. split; [constructor|].
  split; [constructor|].
  intros d. split.
  - intros H. inversion H.
  - intros [v H]. cbn in H. rewrite lookup_empty in H. discriminate.
Defined.

(** The field after picking 5, 1 and 2 January, in this order, and
    removing the 2nd. *)
Example dates_field_sample :
  val (run [ToggleMode; AdvancedDateClick jan5; AdvancedDateClick jan1;
            AdvancedDateClick jan2; AdvancedDateClick jan1] initial) "dates"
    = "2024-01-01;2024-01-02;2024-01-05"
  /\ val (run [ToggleMode; AdvancedDateClick jan5; AdvancedDateClick jan1;
               AdvancedDateClick jan2; RemoveDate "2024-01-02"] initial) "dates"
    = "2024-01-01;2024-01-05".
Proof. vm_compute. split; reflexivity. Qed.

(* ===================================================================== *)
(** ** The two scripts for the range selection *)
(* ===================================================================== *)

(** A string that parses as a date is not empty, so it is truthy. *)
Lemma Date_parse_truthy (x : string) (t : Z) :
  JS.Date_parse x = Some t -> JS.truthy x = true.
Proof. destruct x; [discriminate|reflexivity]. Qed.

(** [updateDateRange] on an empty or complete selection. *)
Lemma updateDateRange_first (sel : string) (s : State) :
  JS.truthy_opt (lf_startDate s) = false \/ JS.truthy_opt (lf_endDate s) = true ->
  let s' := LeaveForm.updateDateRange sel s in
  lf_startDate s' = Some sel
  /\ lf_endDate s' = None
  /\ val s' "simpleDuration" = val s "simpleDuration".
Proof.
  intros H. unfold LeaveForm.updateDateRange, LeaveForm.updateDateRange_with.
  assert (E : negb (JS.truthy_opt (lf_startDate s))
              || JS.truthy_opt (lf_startDate s) && JS.truthy_opt (lf_endDate s)
              = true).
  { destruct H as [H|H]; rewrite H; [reflexivity|].
    now destruct (JS.truthy_opt (lf_startDate s)). }
  rewrite E. cbn zeta.
  split; [now autorewrite with frame|].
  split; [now autorewrite with frame|].
  autorewrite with frame. rewrite !val_set_value_ne by done.
  now autorewrite with frame.
Qed.

(** [updateDateRange] on a selection that has a start only. *)
Lemma updateDateRange_second (sel x : string) (ts te : Z) (s : State) :
  lf_startDate s = Some x ->
  JS.truthy_opt (lf_endDate s) = false ->
  JS.Date_parse x = Some ts ->
  JS.Date_parse sel = Some te ->
  let s' := LeaveForm.updateDateRange sel s in
  (lf_startDate s', lf_endDate s')
    = (if te <? ts then (Some sel, Some x) else (Some x, Some sel))
  /\ val s' "simpleDuration"
     = JS.string_of_Z (JS.ceil_div (Z.max ts te - Z.min ts te) JS.msPerDay + 1).
Proof.
  intros Hs He Hx Hsel. unfold LeaveForm.updateDateRange, LeaveForm.updateDateRange_with.
  rewrite Hs, He. cbn [JS.truthy_opt]. rewrite (Date_parse_truthy x ts Hx).
  cbn [negb orb andb LeaveForm.new_Date_with]. rewrite Hx, Hsel. cbn [JS.lt_number].
  destruct (te <? ts) eqn:E; cbn zeta.
  - apply Z.ltb_lt in E. autorewrite with frame.
    rewrite val_set_value_eq.
    cbn [lf_startDate lf_endDate set_lf_startDate set_lf_endDate
         LeaveForm.new_Date_with].
    rewrite Hx, Hsel. cbn [JS.sub_number option_map JS.string_of_number].
    split; [reflexivity|].
    replace (Z.max ts te - Z.min ts te) with (ts - te) by lia. reflexivity.
  - apply Z.ltb_ge in E. autorewrite with frame.
    rewrite val_set_value_eq.
    cbn [lf_startDate lf_endDate set_lf_startDate set_lf_endDate
         LeaveForm.new_Date_with].
    rewrite Hs. cbn [LeaveForm.new_Date_with].
    rewrite Hx, Hsel. cbn [JS.sub_number option_map JS.string_of_number].
    split; [reflexivity|].
    replace (Z.max ts te - Z.min ts te) with (te - ts) by lia. reflexivity.
Qed.

(** The duration field after a click that starts a range. *)
Lemma simple_dateClick_first_duration (today : Z) (info : ClickInfo) (s : State) :
  today <= date info ->
  startDate s = None \/ endDate s <> None ->
  val (Calendar.simple_dateClick today info s) "simpleDuration"
  = val s "simpleDuration".
Proof.
  intros Ht H. unfold Calendar.simple_dateClick.
  apply Z.ltb_ge in Ht. rewrite Ht.
  assert (E : negb (Calendar.truthy (startDate s))
              || Calendar.truthy (startDate s) && Calendar.truthy (endDate s)
              = true).
  { destruct (startDate s), (endDate s); try reflexivity.
    destruct H as [H|H]; [discriminate|contradiction]. }
  rewrite E, val_validateForm, val_set_html, val_highlightRange.
  rewrite val_updateDateDisplay_no_end.
  rewrite !val_set_value_ne by done. now autorewrite with frame.
Qed.

(** One click keeps the two scripts in agreement. *)
Lemma click_keeps_agreement (off : Z) (c : Z * ClickInfo) (s1 s2 : State) :
  well_formed_click off c ->
  ranges_agree off s1 s2 ->
  ranges_agree off
    (LeaveForm.updateDateRange (dateStr (snd c)) s1)
    (Calendar.simple_dateClick (fst c) (snd c) s2).
Proof.
  destruct c as [today info]. cbn [fst snd].
  intros [Ht Hp] (Hs & He & Hd). cbn [fst snd] in Ht, Hp.
  unfold ranges_agree.
  pose proof (simple_dateClick_range today info s2 Ht) as Hr.
  unfold range_selection in Hr.
  unfold same_date in Hs, He.
  destruct (lf_startDate s1) as [x|] eqn:E1; destruct (startDate s2) as [t|] eqn:E2;
    try contradiction.
  - destruct (lf_endDate s1) as [y|] eqn:E3; destruct (endDate s2) as [e|] eqn:E4;
      try contradiction.
    + (* a complete range: both start afresh *)
      lazy beta iota in Hr.
      destruct (updateDateRange_first (dateStr info) s1) as (F1 & F2 & F3).
      { right. rewrite E3. cbn. eapply Date_parse_truthy; eauto. }
      injection Hr as Hr1 Hr2.
      rewrite F1, F2, F3, Hr1, Hr2.
      rewrite simple_dateClick_first_duration
        by (auto; right; rewrite E4; discriminate).
      cbn [same_date]. auto.
    + (* a start only: both complete the range *)
      lazy beta iota in Hr.
      destruct (updateDateRange_second (dateStr info) x (t + off)
                  (date info + off) s1 E1) as (F1 & F2); auto.
      { now rewrite E3. }
      assert (Ec : (date info + off <? t + off) = (date info <? t)).
      { destruct (date info <? t) eqn:Ec; [apply Z.ltb_lt in Ec; apply Z.ltb_lt
                                          |apply Z.ltb_ge in Ec; apply Z.ltb_ge]; lia. }
      rewrite Ec in F1.
      rewrite (simple_dateClick_second_duration today info t s2 Ht E2 E4).
      rewrite F2.
      replace (Z.max (t + off) (date info + off) - Z.min (t + off) (date info + off))
        with (Z.max t (date info) - Z.min t (date info)) by lia.
      destruct (date info <? t); injection F1 as F1a F1b; injection Hr as Hr1 Hr2;
        rewrite F1a, F1b, Hr1, Hr2; cbn [same_date]; auto.
  - (* nothing selected: both start a range *)
    destruct (updateDateRange_first (dateStr info) s1) as (F1 & F2 & F3).
    { left. now rewrite E1. }
    lazy beta iota in Hr. injection Hr as Hr1 Hr2.
    rewrite F1, F2, F3, Hr1, Hr2.
    rewrite simple_dateClick_first_duration by auto.
    cbn [same_date]. auto.
Qed.

(** X27: where the zone's offset [off] from UTC is the same on every day
    clicked, [updateDateRange] and the simple calendar's [dateClick], fed
    the same clicks (none before today, each naming the same day to both),
    pass through the same start and end dates and the same values of the
    hidden duration field, click after click. *)
Theorem range_scripts_agree (off : Z) (cs : list (Z * ClickInfo)) (s1 s2 : State) :
  Forall (well_formed_click off) cs ->
  ranges_agree off s1 s2 ->
  forall n : nat,
    ranges_agree off
      (run_updateDateRange (take n cs) s1) (run_dateClick (take n cs) s2).
Proof.
  intros Hcs Hs n. revert cs Hcs s1 s2 Hs.
  induction n as [|n IH]; intros cs Hcs s1 s2 Hs.
  - exact Hs.
  - destruct cs as [|c cs]; [exact Hs|].
    inversion Hcs as [|? ? Hc Hcs']; subst.
    cbn [take]. unfold run_updateDateRange, run_dateClick. cbn [fold_left].
    apply (IH cs Hcs').
    now apply click_keeps_agreement.
Qed.

Lemma range_scripts_agree_witness :
  ranges_agree 0
    (run_updateDateRange
       (take 2 [(date jan1, jan2); (date jan1, jan1); (date jan2, jan5)]) initial)
    (run_dateClick
       (take 2 [(date jan1, jan2); (date jan1, jan1); (date jan2, jan5)]) initial)
  /\ ranges_agree 0
    (run_updateDateRange
       (take 3 [(date jan1, jan2); (date jan1, jan1); (date jan2, jan5)]) initial)
    (run_dateClick
       (take 3 [(date jan1, jan2); (date jan1, jan1); (date jan2, jan5)]) initial).
Proof.
  split.
  - apply (range_scripts_agree 0
             [(date jan1, jan2); (date jan1, jan1); (date jan2, jan5)]
             initial initial).
    + repeat constructor; vm_compute; discriminate.
    + repeat split.
  - apply (range_scripts_agree 0
             [(date jan1, jan2); (date jan1, jan1); (date jan2, jan5)]
             initial initial).
    + repeat constructor; vm_compute; discriminate.
    + repeat split.
Defined.

(** After these three clicks both scripts hold the range from 1 to 2
    January, with duration 2, and then a new start on 5 January; what they
    show as the duration after a first click differs ("1" and "0"), the
    hidden field does not. *)
Example range_scripts_sample :
  let cs := [(date jan1, jan2); (date jan1, jan1)] in
  lf_startDate (run_updateDateRange cs initial) = Some "2024-01-01"
  /\ lf_endDate (run_updateDateRange cs initial) = Some "2024-01-02"
  /\ range_selection (run_dateClick cs initial) = (Some (date jan1), Some (date jan2))
  /\ val (run_updateDateRange cs initial) "simpleDuration" = "2"
  /\ val (run_dateClick cs initial) "simpleDuration" = "2"
  /\ html (run_updateDateRange [(date jan1, jan2)] initial) !! durationSpan
     = Some (Text "1")
  /\ html (run_dateClick [(date jan1, jan2)] initial) !! durationSpan
     = Some (Text "0").
Proof. vm_compute. repeat split. Qed.

(** C10, evaluated at a failing input: the clicks on 2 and 4 November 2024
    in a zone whose clocks go back in between are not before today and name
    the same days to both scripts, which then hold the same range, but
    [updateDateRange] writes the duration 3 and [dateClick] writes 4. *)
Lemma range_scripts_differ_across_clock_change :
  let cs := [(date nov2_ny, nov2_ny); (date nov2_ny, nov4_ny)] in
  Forall (fun c : Z * ClickInfo => fst c <= date (snd c)) cs
  /\ option_map JS.toISODate (startDate (run_dateClick cs initial))
     = lf_startDate (run_updateDateRange cs initial)
  /\ option_map JS.toISODate (endDate (run_dateClick cs initial))
     = lf_endDate (run_updateDateRange cs initial)
  /\ val (run_updateDateRange cs initial) "simpleDuration" = "3"
  /\ val (run_dateClick cs initial) "simpleDuration" = "4".
Proof.
  split; [repeat constructor; vm_compute; discriminate|].
  vm_compute. repeat split.
Qed.

(* ===================================================================== *)
(** ** More on the attachment input *)
(* ===================================================================== *)

(** The [change] listener, case by case. *)
Lemma attachmentInput_change_cases (f : File) (s : State) :
  step (ChooseFile (Some f)) s
  = if file_passes f then
      LeaveForm.createFilePreview f (set_files (Some f) s)
    else
      set_files None
        (alert (if JS.includes accepted_extensions (LeaveForm.extension (file_name f))
                then size_message else type_message)
           (set_files (Some f) s)).
Proof.
  cbn [step]. unfold LeaveForm.attachmentInput_change, file_passes, max_file_size.
  cbn [files set_files]. rewrite dotted_extension_test.
  destruct (JS.includes accepted_extensions (LeaveForm.extension (file_name f)));
    cbn [negb andb]; [|reflexivity].
  destruct (file_size f <=? 10485760) eqn:E.
  - apply Z.leb_le in E.
    assert (E' : (10 * 1024 * 1024 <? file_size f) = false) by (apply Z.ltb_ge; lia).
    now rewrite E'.
  - apply Z.leb_gt in E.
    assert (E' : (10 * 1024 * 1024 <? file_size f) = true) by (apply Z.ltb_lt; lia).
    now rewrite E'.
Qed.

(** X1: the chosen file stays in the input exactly when its extension is
    accepted and its size is at most 10,485,760 bytes (the limit itself
    passes).  Then, and only then, the loading indicator is shown and one
    read is started, as a data URL for a type starting with [image/] and as
    an array buffer otherwise; otherwise one message is shown. *)
Theorem chosen_file_kept_iff_passes (f : File) (s : State) :
  let s' := step (ChooseFile (Some f)) s in
  files s' = (if file_passes f then Some f else None)
  /\ reads s'
     = (if file_passes f
        then (reads s ++ [(f, if String.prefix "image/" (file_type f)
                              then AsDataURL else AsArrayBuffer)])%list
        else reads s)
  /\ html s' !! "attachmentPreview"
     = (if file_passes f then Some Spinner else html s !! "attachmentPreview")
  /\ length (alerts s')
     = (if file_passes f then length (alerts s) else S (length (alerts s))).
Proof.
  cbn zeta. rewrite attachmentInput_change_cases.
  destruct (file_passes f).
  - unfold LeaveForm.createFilePreview. cbn.
    rewrite lookup_insert_eq. auto.
  - cbn. rewrite length_app. cbn. repeat split; lia.
Qed.

(** X2: a file that fails is told one reason: the type message when the
    extension is not accepted, whatever the size, and the size message only
    for an accepted extension. *)
Theorem rejection_reports_type_before_size (f : File) (s : State) :
  file_passes f = false ->
  alerts (step (ChooseFile (Some f)) s)
  = (alerts s
     ++ [if JS.includes accepted_extensions (LeaveForm.extension (file_name f))
         then size_message else type_message])%list.
Proof.
  intros H. rewrite attachmentInput_change_cases, H. reflexivity.
Qed.

Lemma rejection_reports_type_before_size_witness :
  alerts (step (ChooseFile (Some (mkFile "clip.MP4" 99999999 "video/mp4"))) initial)
  = [type_message].
Proof.
  apply (rejection_reports_type_before_size
           (mkFile "clip.MP4" 99999999 "video/mp4") initial).
  reflexivity.
Defined.

(** *** The extension of a file name *)

Lemma split_nonempty (c : ascii) (s : string) : JS.split c s <> [].
Proof.
  destruct s as [|a s]; cbn; [discriminate|].
  destruct (Ascii.eqb a c); [discriminate|].
  destruct (JS.split c s); discriminate.
Qed.

Lemma split_dotless (s : string) : dotless s = true -> JS.split "." s = [s].
Proof.
  induction s as [|a s IH]; cbn; [reflexivity|].
  intros H. apply andb_true_iff in H as [Ha Hs].
  apply negb_true_iff in Ha. rewrite Ha, (IH Hs). reflexivity.
Qed.

Lemma split_app (a b : string) :
  JS.split "." (a +:+ String "." b) = (JS.split "." a ++ JS.split "." b)%list.
Proof.
  induction a as [|x a IH]; [reflexivity|].
  change (String x a +:+ String "." b) with (String x (a +:+ String "." b)).
  cbn [JS.split]. rewrite IH.
  destruct (Ascii.eqb x "."); [reflexivity|].
  pose proof (split_nonempty "." a) as Hn.
  destruct (JS.split "." a); [contradiction|reflexivity].
Qed.

Lemma pop_app_singleton (l : list string) (x : string) : JS.pop (l ++ [x]) = x.
Proof. unfold JS.pop. apply List.last_last. Qed.

(** X3: the extension is the lower-cased text after the last dot of the
    name; a name without a dot is its own extension, so a file called
    [PDF] passes the type check. *)
Theorem extension_after_last_dot (ext : string) :
  dotless ext = true ->
  LeaveForm.extension ext = JS.toLowerCase ext
  /\ forall base, LeaveForm.extension (base +:+ "." +:+ ext) = JS.toLowerCase ext.
Proof.
  intros H. unfold LeaveForm.extension. split.
  - now rewrite (split_dotless ext H).
  - intros base. change (base +:+ "." +:+ ext) with (base +:+ String "." ext).
    rewrite split_app, (split_dotless ext H).
    now rewrite pop_app_singleton.
Qed.

Lemma extension_after_last_dot_witness :
  LeaveForm.extension "PDF" = "pdf"
  /\ forall base, LeaveForm.extension (base +:+ "." +:+ "PDF") = "pdf".
Proof. apply (extension_after_last_dot "PDF"). reflexivity. Defined.

(** *** The preview *)

Lemma accepted_extension_cases (ext : string) :
  JS.includes accepted_extensions ext = true ->
  ext = "pdf" \/ ext = "png" \/ ext = "jpg" \/ ext = "jpeg" \/ ext = "gif"
  \/ ext = "bmp".
Proof.
  unfold JS.includes, accepted_extensions. cbn [existsb].
  rewrite !orb_true_iff, !String.eqb_eq. intuition discriminate.
Qed.

(** The card [reader.onload] shows for a file that passed the checks. *)
Lemma reader_onload_card (f : File) (s : State) :
  file_passes f = true ->
  html (LeaveForm.reader_onload f s) !! "attachmentPreview"
  = Some (if String.eqb (LeaveForm.extension (file_name f)) "pdf"
          then PdfCard f else ImageCard f).
Proof.
  unfold file_passes. intros H. apply andb_true_iff in H as [H _].
  apply accepted_extension_cases in H.
  unfold LeaveForm.reader_onload. cbn [html set_html].
  rewrite lookup_insert_eq.
  destruct H as [E|[E|[E|[E|[E|E]]]]]; rewrite E; reflexivity.
Qed.

(** X4: when the read of a file that passed the checks completes, the
    preview is the PDF card for the extension [pdf] and the image card for
    every other accepted extension: it is never left empty. *)
Theorem accepted_file_gets_card (f : File) (s : State) :
  file_passes f = true ->
  let s' := run [ChooseFile (Some f); ReaderLoad f] s in
  html s' !! "attachmentPreview"
  = Some (if String.eqb (LeaveForm.extension (file_name f)) "pdf"
          then PdfCard f else ImageCard f)
  /\ files s' = Some f
  /\ alerts s' = alerts s.
Proof.
  intros H. cbn [run fold_left].
  rewrite attachmentInput_change_cases, H.
  cbn [step]. split; [now apply reader_onload_card|].
  split; reflexivity.
Qed.

Lemma accepted_file_gets_card_witness :
  let s' := run [ChooseFile (Some photo); ReaderLoad photo] initial in
  html s' !! "attachmentPreview"
  = Some (if String.eqb (LeaveForm.extension (file_name photo)) "pdf"
          then PdfCard photo else ImageCard photo)
  /\ files s' = Some photo
  /\ alerts s' = alerts initial.
Proof. apply (accepted_file_gets_card photo initial). reflexivity. Defined.

(** X5: a completing read is not checked against the input.  When a second
    file is chosen while the first is still loading and the first load
    completes last, the preview shows the first file although the input
    holds the second; and a load that completes after the attachment was
    cleared fills the preview of an empty input. *)
Theorem late_load_overwrites_preview (f1 f2 : File) (s : State) :
  file_passes f1 = true ->
  file_passes f2 = true ->
  (let s' := run [ChooseFile (Some f1); ChooseFile (Some f2);
                  ReaderLoad f2; ReaderLoad f1] s in
   files s' = Some f2 /\ is_card f1 (html s' !! "attachmentPreview"))
  /\ (let s' := run [ChooseFile (Some f1); ClearAttachment; ReaderLoad f1] s in
      files s' = None /\ is_card f1 (html s' !! "attachmentPreview")).
Proof.
  intros H1 H2. unfold is_card. cbn [run fold_left].
  split.
  - rewrite (attachmentInput_change_cases f1), H1.
    rewrite (attachmentInput_change_cases f2), H2.
    cbn [step]. rewrite (reader_onload_card f1) by assumption.
    split; [reflexivity|].
    destruct (String.eqb _ "pdf"); auto.
  - rewrite (attachmentInput_change_cases f1), H1.
    cbn [step]. rewrite (reader_onload_card f1) by assumption.
    split; [reflexivity|].
    destruct (String.eqb _ "pdf"); auto.
Qed.

Lemma late_load_overwrites_preview_witness :
  (let s' := run [ChooseFile (Some photo);
                  ChooseFile (Some (mkFile "note.pdf" 100 "application/pdf"));
                  ReaderLoad (mkFile "note.pdf" 100 "application/pdf");
                  ReaderLoad photo] initial in
   files s' = Some (mkFile "note.pdf" 100 "application/pdf")
   /\ is_card photo (html s' !! "attachmentPreview"))
  /\ (let s' := run [ChooseFile (Some photo); ClearAttachment; ReaderLoad photo]
                  initial in
      files s' = None /\ is_card photo (html s' !! "attachmentPreview")).
Proof.
  apply (late_load_overwrites_preview photo
           (mkFile "note.pdf" 100 "application/pdf") initial); reflexivity.
Defined.

(* ===================================================================== *)
(** ** More on the range selection *)
(* ===================================================================== *)

Lemma startDate_highlightRange (s : State) :
  startDate (Calendar.highlightRange s) = startDate s.
Proof. exact (f_equal fst (range_highlightRange s)). Qed.

Lemma endDate_highlightRange (s : State) :
  endDate (Calendar.highlightRange s) = endDate s.
Proof. exact (f_equal snd (range_highlightRange s)). Qed.

Lemma startDate_updateDateDisplay (a b : option Z) (s : State) :
  startDate (Calendar.updateDateDisplay a b s) = startDate s.
Proof. destruct a, b; reflexivity. Qed.

Lemma endDate_updateDateDisplay (a b : option Z) (s : State) :
  endDate (Calendar.updateDateDisplay a b s) = endDate s.
Proof. destruct a, b; reflexivity. Qed.

Lemma modeSwitch_highlightRange (s : State) :
  modeSwitch (Calendar.highlightRange s) = modeSwitch s.
Proof.
  unfold Calendar.highlightRange. cbn.
  destruct (startDate s); cbn; [destruct (endDate s)|]; reflexivity.
Qed.

Lemma modeSwitch_updateDateDisplay (a b : option Z) (s : State) :
  modeSwitch (Calendar.updateDateDisplay a b s) = modeSwitch s.
Proof. destruct a, b; reflexivity. Qed.

Lemma events_updateDateDisplay (a b : option Z) (s : State) :
  events (Calendar.updateDateDisplay a b s) = events s.
Proof. destruct a, b; reflexivity. Qed.

Lemma selecting_updateDateDisplay (a b : option Z) (s : State) :
  selecting (Calendar.updateDateDisplay a b s) = selecting s.
Proof. destruct a, b; reflexivity. Qed.

Lemma disabled_updateDateDisplay (a b : option Z) (s : State) :
  disabled (Calendar.updateDateDisplay a b s) = disabled s.
Proof. destruct a, b; reflexivity. Qed.

(** [highlightRange] replaces all markers by those of the selection, and
    lowers its guard. *)
Lemma highlightRange_in_sync (s : State) :
  markers_in_sync (Calendar.highlightRange s).
Proof.
  destruct s as [ls le st en sd sl ev va ht di sh cl ms fi al re].
  unfold markers_in_sync, Calendar.highlightRange, markers_of.
  destruct st, en; split; reflexivity.
Qed.

(** What [updateDateDisplay] writes into the two date inputs. *)
Lemma val_updateDateDisplay_start (a b : option Z) (s : State) :
  val (Calendar.updateDateDisplay a b s) "simpleDateInput"
  = match a with Some t => JS.toISODate t | None => "" end.
Proof.
  unfold Calendar.updateDateDisplay, swap_class, val.
  destruct a, b; cbn; repeat (rewrite lookup_insert_ne by done);
    now rewrite lookup_insert_eq.
Qed.

Lemma val_updateDateDisplay_end (a b : option Z) (s : State) :
  val (Calendar.updateDateDisplay a b s) "simpleEndDateInput"
  = match b with Some t => JS.toISODate t | None => "" end.
Proof.
  unfold Calendar.updateDateDisplay, swap_class, val.
  destruct a, b; cbn; repeat (rewrite lookup_insert_ne by done);
    now rewrite lookup_insert_eq.
Qed.

(** The button after a run of the enabling validator, as a boolean. *)
Lemma validateForm_enables (s : State) :
  submit_enabled (Calendar.validateForm s) = leaveTypeSelected s && selectionValid s.
Proof.
  unfold Calendar.validateForm. rewrite submit_enabled_set_disabled.
  unfold leaveTypeSelected, selectionValid.
  destruct (JS.truthy (val s "leaveType")); [|reflexivity].
  destruct (modeSwitch s); cbn.
  - destruct (size (selectedDates s)); reflexivity.
  - now rewrite negb_involutive.
Qed.

(** The click that starts a range, written out. *)
Lemma simple_dateClick_start (today : Z) (info : ClickInfo) (s : State) :
  today <= date info ->
  startDate s = None \/ endDate s <> None ->
  Calendar.simple_dateClick today info s
  = Calendar.validateForm
      (set_html "simpleEndDateDisplay" (Prompt "Now select end date")
         (Calendar.highlightRange
            (Calendar.updateDateDisplay (Some (date info)) None
               (set_value "simpleDateInput" (JS.toISODate (date info))
                  (set_value "simpleEndDateInput" ""
                     (set_endDate None (set_startDate (Some (date info)) s))))))).
Proof.
  intros Ht H. unfold Calendar.simple_dateClick.
  apply Z.ltb_ge in Ht. rewrite Ht.
  assert (E : negb (Calendar.truthy (startDate s))
              || Calendar.truthy (startDate s) && Calendar.truthy (endDate s)
              = true).
  { destruct (startDate s), (endDate s); try reflexivity.
    destruct H as [H|H]; [discriminate|contradiction]. }
  now rewrite E.
Qed.

(** The click that completes a range, written out. *)
Lemma simple_dateClick_complete (today : Z) (info : ClickInfo) (a : Z) (s : State) :
  today <= date info ->
  startDate s = Some a -> endDate s = None ->
  Calendar.simple_dateClick today info s
  = let lo := Z.min a (date info) in
    let hi := Z.max a (date info) in
    Calendar.validateForm
      (Calendar.highlightRange
         (Calendar.updateDateDisplay (Some lo) (Some hi)
            (set_value "simpleEndDateInput" (JS.toISODate hi)
               (set_value "simpleDateInput" (JS.toISODate lo)
                  (set_endDate (Some hi) (set_startDate (Some lo) s)))))).
Proof.
  intros Ht Hs He. unfold Calendar.simple_dateClick.
  apply Z.ltb_ge in Ht. rewrite Ht, Hs, He.
  cbn [Calendar.truthy negb orb andb from_option id].
  destruct (date info <? a) eqn:E.
  - apply Z.ltb_lt in E.
    replace (Z.min a (date info)) with (date info) by lia.
    replace (Z.max a (date info)) with a by lia.
    cbn [startDate endDate set_startDate set_endDate from_option id].
    destruct s; reflexivity.
  - apply Z.ltb_ge in E.
    replace (Z.min a (date info)) with a by lia.
    replace (Z.max a (date info)) with (date info) by lia.
    cbn [startDate endDate set_startDate set_endDate from_option id].
    rewrite Hs. cbn [from_option id].
    destruct s; cbn in Hs; subst; reflexivity.
Qed.

(** X6: a click on a complete range (in simple mode) starts a new range at
    the clicked date: the end is dropped and its hidden input emptied, the
    submit button is disabled, and the hidden duration field still holds
    the duration of the range that was replaced. *)
Theorem click_on_complete_range_starts_anew
    (today : Z) (info : ClickInfo) (a b : Z) (s : State) :
  today <= date info ->
  startDate s = Some a -> endDate s = Some b ->
  modeSwitch s = false ->
  let s' := step (SimpleDateClick today info) s in
  range_selection s' = (Some (date info), None)
  /\ val s' "simpleDateInput" = JS.toISODate (date info)
  /\ val s' "simpleEndDateInput" = ""
  /\ val s' "simpleDuration" = val s "simpleDuration"
  /\ submit_enabled s' = false.
Proof.
  intros Ht Hs He Hm. cbn [step].
  assert (Hc : startDate s = None \/ endDate s <> None)
    by (right; rewrite He; discriminate).
  split; [rewrite simple_dateClick_range, Hs, He by assumption; reflexivity|].
  split; [|split; [|split]].
  - rewrite simple_dateClick_start by assumption.
    rewrite val_validateForm, val_set_html, val_highlightRange.
    apply val_updateDateDisplay_start.
  - rewrite simple_dateClick_start by assumption.
    rewrite val_validateForm, val_set_html, val_highlightRange.
    apply val_updateDateDisplay_end.
  - now apply simple_dateClick_first_duration.
  - rewrite simple_dateClick_start by assumption.
    rewrite validateForm_enables. unfold selectionValid.
    frame modeSwitch. rewrite modeSwitch_highlightRange, modeSwitch_updateDateDisplay.
    frame modeSwitch. rewrite Hm.
    frame endDate. rewrite endDate_highlightRange, endDate_updateDateDisplay.
    frame endDate. cbn [endDate set_endDate Calendar.truthy].
    now rewrite !andb_false_r.
Qed.

Lemma click_on_complete_range_starts_anew_witness :
  let s' := step (SimpleDateClick (date jan1) jan2) range_chosen in
  range_selection s' = (Some (date jan2), None)
  /\ val s' "simpleDateInput" = JS.toISODate (date jan2)
  /\ val s' "simpleEndDateInput" = ""
  /\ val s' "simpleDuration" = val range_chosen "simpleDuration"
  /\ submit_enabled s' = false.
Proof.
  apply (click_on_complete_range_starts_anew (date jan1) jan2
           (date jan1) (date jan5) range_chosen).
  - vm_compute. discriminate.
  - reflexivity.
  - reflexivity.
  - reflexivity.
Defined.

(** *** Invariants of the range selection *)

Lemma range_ok_frame (s s' : State) :
  range_selection s' = range_selection s -> range_ok s -> range_ok s'.
Proof.
  unfold range_selection, range_ok. intros H. injection H as H1 H2.
  now rewrite H1, H2.
Qed.

Lemma range_ok_empty (s : State) :
  range_selection s = (None, None) -> range_ok s.
Proof.
  unfold range_selection, range_ok. intros H. injection H as H1 H2.
  now rewrite H1, H2.
Qed.

Lemma range_toggle_mode (s : State) :
  range_selection (toggle_mode s)
  = if modeSwitch s then range_selection s else (None, None).
Proof.
  unfold toggle_mode, range_selection, Calendar.modeSwitch_change,
    LeaveForm.modeSwitch_change.
  destruct (modeSwitch s) eqn:E; cbn; rewrite ?E; cbn; auto.
Qed.

Lemma simple_dateClick_range_ok (today : Z) (info : ClickInfo) (s : State) :
  range_ok s -> range_ok (Calendar.simple_dateClick today info s).
Proof.
  intros H. destruct (date info <? today) eqn:Et.
  - apply Z.ltb_lt in Et. now rewrite simple_dateClick_past.
  - apply Z.ltb_ge in Et.
    pose proof (simple_dateClick_range today info s Et) as Hr.
    unfold range_ok in *. unfold range_selection in Hr.
    destruct (startDate s) as [a|]; destruct (endDate s) as [b|];
      lazy beta iota in Hr.
    + injection Hr as H1 H2. now rewrite H1, H2.
    + destruct (date info <? a) eqn:E; injection Hr as H1 H2; rewrite H1, H2;
        [apply Z.ltb_lt in E|apply Z.ltb_ge in E]; lia.
    + contradiction.
    + injection Hr as H1 H2. now rewrite H1, H2.
Qed.

Lemma step_range_ok (e : Event) (s : State) : range_ok s -> range_ok (step e s).
Proof.
  destruct e; cbn [step].
  - apply simple_dateClick_range_ok.
  - apply range_ok_frame. unfold Calendar.advanced_dateClick.
    destruct (negb _); reflexivity.
  - apply range_ok_frame. reflexivity.
  - intros H. pose proof (range_toggle_mode s) as Hr.
    destruct (modeSwitch s); [now apply (range_ok_frame s)|now apply range_ok_empty].
  - intros _. apply range_ok_empty. reflexivity.
  - apply range_ok_frame. unfold LeaveForm.validateLeaveType.
    destruct (JS.truthy _); reflexivity.
  - apply range_ok_frame. reflexivity.
  - apply range_ok_frame. unfold LeaveForm.attachmentInput_change.
    cbn [files set_files]. destruct f as [f|]; [|reflexivity].
    destruct (negb _); [reflexivity|]. destruct (_ <? _); reflexivity.
  - apply range_ok_frame. reflexivity.
  - apply range_ok_frame. reflexivity.
  - apply range_ok_frame. reflexivity.
  - destruct (submit_shows_at_most_one_alert s) as [E|[msg E]]; rewrite E;
      [auto|apply range_ok_frame; reflexivity].
Qed.

(** X7: whatever happens on the page, the range selection stays well
    formed: there is an end date only together with a start date, and the
    end is never before the start. *)
Theorem range_selection_stays_ordered (es : list Event) (s : State) :
  range_ok s -> range_ok (run es s).
Proof.
  revert s. induction es as [|e es IH]; intros s H; cbn; [assumption|].
  apply IH. now apply step_range_ok.
Qed.

Lemma range_selection_stays_ordered_witness :
  range_ok
    (run [SimpleDateClick (date jan1) jan5; SimpleDateClick (date jan1) jan1;
          ToggleMode; AdvancedDateClick jan2; ToggleMode;
          SimpleDateClick (date jan1) jan2; ClearDates;
          SimpleDateClick (date jan1) jan5; SimpleDateClick (date jan1) jan2]
       initial).
Proof. apply (range_selection_stays_ordered _ initial). exact I. Defined.

Lemma markers_in_sync_frame (s s' : State) :
  events s' = events s -> startDate s' = startDate s ->
  endDate s' = endDate s -> selecting s' = selecting s ->
  markers_in_sync s -> markers_in_sync s'.
Proof.
  unfold markers_in_sync. intros H1 H2 H3 H4. now rewrite H1, H2, H3, H4.
Qed.

Lemma validateForm_in_sync (s : State) :
  markers_in_sync s -> markers_in_sync (Calendar.validateForm s).
Proof. apply markers_in_sync_frame; reflexivity. Qed.

Lemma set_html_in_sync (id : string) (v : Markup) (s : State) :
  markers_in_sync s -> markers_in_sync (set_html id v s).
Proof. apply markers_in_sync_frame; reflexivity. Qed.

Lemma clearDateSelection_in_sync (s : State) :
  selecting s = false -> markers_in_sync (Calendar.clearDateSelection s).
Proof. intros H. split; [reflexivity|exact H]. Qed.

Lemma simple_dateClick_in_sync (today : Z) (info : ClickInfo) (s : State) :
  markers_in_sync s -> markers_in_sync (Calendar.simple_dateClick today info s).
Proof.
  intros H. destruct (date info <? today) eqn:Et.
  - apply Z.ltb_lt in Et. now rewrite simple_dateClick_past.
  - apply Z.ltb_ge in Et.
    destruct (startDate s) as [a|] eqn:Es; destruct (endDate s) as [b|] eqn:Ee.
    + rewrite simple_dateClick_start
        by (auto; right; rewrite Ee; discriminate).
      apply validateForm_in_sync.
      apply set_html_in_sync, highlightRange_in_sync.
    + rewrite (simple_dateClick_complete today info a s Et Es Ee). cbn zeta.
      apply validateForm_in_sync, highlightRange_in_sync.
    + rewrite simple_dateClick_start by auto.
      apply validateForm_in_sync.
      apply set_html_in_sync, highlightRange_in_sync.
    + rewrite simple_dateClick_start by auto.
      apply validateForm_in_sync.
      apply set_html_in_sync, highlightRange_in_sync.
Qed.

Lemma toggle_mode_in_sync (s : State) :
  markers_in_sync s -> markers_in_sync (toggle_mode s).
Proof.
  intros H. unfold toggle_mode, Calendar.modeSwitch_change.
  apply validateForm_in_sync.
  unfold LeaveForm.modeSwitch_change. cbn [set_modeSwitch modeSwitch].
  destruct (negb (modeSwitch s)); cbn [modeSwitch set_shown].
  - apply clearDateSelection_in_sync. apply H.
  - revert H. apply markers_in_sync_frame; reflexivity.
Qed.

Lemma step_in_sync (e : Event) (s : State) :
  markers_in_sync s -> markers_in_sync (step e s).
Proof.
  destruct e; cbn [step].
  - apply simple_dateClick_in_sync.
  - unfold Calendar.advanced_dateClick.
    destruct (negb _); [|auto]. apply markers_in_sync_frame; reflexivity.
  - apply markers_in_sync_frame; reflexivity.
  - apply toggle_mode_in_sync.
  - intros H. apply clearDateSelection_in_sync, H.
  - unfold LeaveForm.validateLeaveType.
    destruct (JS.truthy _); apply markers_in_sync_frame; reflexivity.
  - apply markers_in_sync_frame; reflexivity.
  - unfold LeaveForm.attachmentInput_change.
    cbn [files set_files]. destruct f as [f|];
      [|apply markers_in_sync_frame; reflexivity].
    destruct (negb _); [apply markers_in_sync_frame; reflexivity|].
    destruct (_ <? _); apply markers_in_sync_frame; reflexivity.
  - apply markers_in_sync_frame; reflexivity.
  - apply markers_in_sync_frame; reflexivity.
  - apply markers_in_sync_frame; reflexivity.
  - destruct (submit_shows_at_most_one_alert s) as [E|[msg E]]; rewrite E;
      [auto|apply markers_in_sync_frame; reflexivity].
Qed.

(** X8: the simple calendar always shows the current range selection and
    nothing else: after every sequence of events its background events are
    the start-day marker and, for a complete range, the marker from the
    start day to the day after the end (none when nothing is selected), and
    the redraw guard [selecting] is down.  Markers never pile up. *)
Theorem markers_follow_selection (es : list Event) (s : State) :
  markers_in_sync s -> markers_in_sync (run es s).
Proof.
  revert s. induction es as [|e es IH]; intros s H; cbn; [assumption|].
  apply IH. now apply step_in_sync.
Qed.

Lemma markers_follow_selection_witness :
  markers_in_sync
    (run [SimpleDateClick (date jan1) jan5; SimpleDateClick (date jan1) jan1;
          SimpleDateClick (date jan1) jan2; ToggleMode; ToggleMode;
          SimpleDateClick (date jan1) jan5; SimpleDateClick (date jan1) jan2]
       initial).
Proof. apply (markers_follow_selection _ initial). split; reflexivity. Defined.

(* ===================================================================== *)
(** ** The submit button along the events *)
(* ===================================================================== *)

Lemma validateForm_up_to_date (s : State) :
  button_up_to_date (Calendar.validateForm s).
Proof. unfold button_up_to_date. now rewrite validateForm_enables. Qed.

Lemma simple_dateClick_up_to_date (today : Z) (info : ClickInfo) (s : State) :
  Calendar.simple_dateClick today info s = s
  \/ button_up_to_date (Calendar.simple_dateClick today info s).
Proof.
  destruct (date info <? today) eqn:Et.
  - left. apply Z.ltb_lt in Et. now apply simple_dateClick_past.
  - right. apply Z.ltb_ge in Et.
    destruct (startDate s) as [a|] eqn:Es; destruct (endDate s) as [b|] eqn:Ee.
    + rewrite simple_dateClick_start
        by (auto; right; rewrite Ee; discriminate).
      apply validateForm_up_to_date.
    + rewrite (simple_dateClick_complete today info a s Et Es Ee).
      apply validateForm_up_to_date.
    + rewrite simple_dateClick_start by auto. apply validateForm_up_to_date.
    + rewrite simple_dateClick_start by auto. apply validateForm_up_to_date.
Qed.

(** X9: every date click, removal and mode switch that changes anything
    leaves the submit button up to date: enabled exactly when a leave type
    is selected and the selection is valid for the current mode, as they
    are after the event. *)
Theorem button_follows_selection (e : Event) (s : State) :
  revalidates e = true ->
  step e s = s \/ button_up_to_date (step e s).
Proof.
  destruct e; try discriminate; intros _; cbn [step].
  - apply simple_dateClick_up_to_date.
  - unfold Calendar.advanced_dateClick.
    destruct (negb _); [right; apply validateForm_up_to_date|now left].
  - right. apply validateForm_up_to_date.
  - right. apply validateForm_up_to_date.
Qed.

Lemma button_follows_selection_witness :
  step (RemoveDate "2024-01-01") (run [ToggleMode; AdvancedDateClick jan1] type_chosen)
  = run [ToggleMode; AdvancedDateClick jan1] type_chosen
  \/ button_up_to_date
       (step (RemoveDate "2024-01-01")
          (run [ToggleMode; AdvancedDateClick jan1] type_chosen)).
Proof.
  apply (button_follows_selection (RemoveDate "2024-01-01")). reflexivity.
Defined.

(** Removing the last date in advanced mode disables the button again. *)
Example removing_last_date_disables :
  submit_enabled (run [ToggleMode; AdvancedDateClick jan1] type_chosen) = true
  /\ submit_enabled
       (run [ToggleMode; AdvancedDateClick jan1; RemoveDate "2024-01-01"]
          type_chosen) = false.
Proof. vm_compute. split; reflexivity. Qed.

Lemma val_simple_dateClick_other (today : Z) (info : ClickInfo) (s : State) (k : string) :
  k <> "simpleDateInput" -> k <> "simpleEndDateInput" -> k <> "simpleDuration" ->
  val (Calendar.simple_dateClick today info s) k = val s k.
Proof.
  intros K1 K2 K3. destruct (date info <? today) eqn:Et.
  - apply Z.ltb_lt in Et. now rewrite simple_dateClick_past.
  - apply Z.ltb_ge in Et.
    assert (Hstart : startDate s = None \/ endDate s <> None ->
                     val (Calendar.simple_dateClick today info s) k = val s k).
    { intros Hc. rewrite simple_dateClick_start by assumption.
      rewrite val_validateForm, val_set_html, val_highlightRange.
      rewrite val_updateDateDisplay_other by assumption.
      rewrite !val_set_value_ne by congruence. now autorewrite with frame. }
    destruct (startDate s) as [a|] eqn:Es; destruct (endDate s) as [b|] eqn:Ee;
      try (apply Hstart; auto; right; discriminate).
    rewrite (simple_dateClick_complete today info a s Et Es Ee). cbn zeta.
    rewrite val_validateForm, val_highlightRange.
    rewrite val_updateDateDisplay_other by assumption.
    rewrite !val_set_value_ne by congruence. now autorewrite with frame.
Qed.

Lemma modeSwitch_simple_dateClick (today : Z) (info : ClickInfo) (s : State) :
  modeSwitch (Calendar.simple_dateClick today info s) = modeSwitch s.
Proof.
  destruct (date info <? today) eqn:Et.
  - apply Z.ltb_lt in Et. now rewrite simple_dateClick_past.
  - apply Z.ltb_ge in Et.
    assert (Hstart : startDate s = None \/ endDate s <> None ->
                     modeSwitch (Calendar.simple_dateClick today info s)
                     = modeSwitch s).
    { intros Hc. rewrite simple_dateClick_start by assumption.
      frame modeSwitch.
      rewrite modeSwitch_highlightRange, modeSwitch_updateDateDisplay.
      now frame modeSwitch. }
    destruct (startDate s) as [a|] eqn:Es; destruct (endDate s) as [b|] eqn:Ee;
      try (apply Hstart; auto; right; discriminate).
    rewrite (simple_dateClick_complete today info a s Et Es Ee). cbn zeta.
    frame modeSwitch.
    rewrite modeSwitch_highlightRange, modeSwitch_updateDateDisplay.
    now frame modeSwitch.
Qed.

Lemma clearDateSelection_keeps_button (s : State) :
  submit_enabled (Calendar.clearDateSelection s) = submit_enabled s.
Proof.
  unfold submit_enabled, Calendar.clearDateSelection.
  frame disabled. rewrite ?disabled_updateDateDisplay. frame disabled.
  reflexivity.
Qed.

(** X10: the Clear button empties the range selection but does not run the
    validator: with a leave type selected in simple mode, after a range is
    chosen and then cleared the submit button is still enabled although no
    date is selected, and the hidden duration field still holds the
    duration of the cleared range. *)
Theorem clear_leaves_button_enabled
    (today : Z) (i1 i2 : ClickInfo) (s : State) :
  today <= date i1 -> today <= date i2 ->
  range_selection s = (None, None) ->
  modeSwitch s = false ->
  leaveTypeSelected s = true ->
  let s2 := run [SimpleDateClick today i1; SimpleDateClick today i2] s in
  let s3 := step ClearDates s2 in
  range_selection s3 = (None, None)
  /\ selectionValid s3 = false
  /\ submit_enabled s3 = true
  /\ val s3 "simpleDateInput" = ""
  /\ val s3 "simpleEndDateInput" = ""
  /\ val s3 "simpleDuration" = val s2 "simpleDuration".
Proof.
  intros H1 H2 Hs Hm Hl. cbn [run fold_left step]. cbn zeta.
  unfold range_selection in Hs. injection Hs as Hs He.
  pose proof (simple_dateClick_range today i1 s H1) as R1.
  rewrite Hs in R1. unfold range_selection in R1. injection R1 as R1s R1e.
  assert (M1 : modeSwitch (Calendar.simple_dateClick today i1 s) = false)
    by now rewrite modeSwitch_simple_dateClick.
  assert (L1 : leaveTypeSelected (Calendar.simple_dateClick today i1 s) = true).
  { unfold leaveTypeSelected.
    now rewrite val_simple_dateClick_other by discriminate. }
  revert R1s R1e M1 L1.
  generalize (Calendar.simple_dateClick today i1 s). intros s1 R1s R1e M1 L1.
  pose proof (simple_dateClick_range today i2 s1 H2) as R2.
  rewrite R1s, R1e in R2. unfold range_selection in R2.
  assert (M2 : modeSwitch (Calendar.simple_dateClick today i2 s1) = false)
    by now rewrite modeSwitch_simple_dateClick.
  assert (L2 : leaveTypeSelected (Calendar.simple_dateClick today i2 s1) = true).
  { unfold leaveTypeSelected.
    now rewrite val_simple_dateClick_other by discriminate. }
  pose proof (simple_dateClick_up_to_date today i2 s1) as U2.
  revert R2 M2 L2 U2.
  generalize (Calendar.simple_dateClick today i2 s1). intros s2 R2 M2 L2 U2.
  assert (Hv : selectionValid s2 = true).
  { unfold selectionValid. rewrite M2.
    destruct (date i2 <? date i1); injection R2 as E1 E2; now rewrite E1, E2. }
  split; [reflexivity|].
  split.
  { unfold selectionValid, Calendar.clearDateSelection.
    frame modeSwitch. rewrite ?modeSwitch_updateDateDisplay. frame modeSwitch.
    rewrite M2.
    frame startDate. rewrite ?startDate_updateDateDisplay. frame startDate.
    reflexivity. }
  split.
  { rewrite clearDateSelection_keeps_button.
    destruct U2 as [E|E].
    - exfalso. rewrite E, R1s, R1e in R2.
      destruct (date i2 <? date i1); discriminate.
    - unfold button_up_to_date in E. now rewrite E, Hv, L2. }
  unfold Calendar.clearDateSelection.
  split; [rewrite val_set_events; apply val_updateDateDisplay_start|].
  split; [rewrite val_set_events; apply val_updateDateDisplay_end|].
  rewrite val_set_events, val_updateDateDisplay_no_end.
  now autorewrite with frame.
Qed.

Lemma clear_leaves_button_enabled_witness :
  let s2 := run [SimpleDateClick (date jan1) jan1; SimpleDateClick (date jan1) jan5]
              type_chosen in
  let s3 := step ClearDates s2 in
  range_selection s3 = (None, None)
  /\ selectionValid s3 = false
  /\ submit_enabled s3 = true
  /\ val s3 "simpleDateInput" = ""
  /\ val s3 "simpleEndDateInput" = ""
  /\ val s3 "simpleDuration" = val s2 "simpleDuration".
Proof.
  apply (clear_leaves_button_enabled (date jan1) jan1 jan5 type_chosen).
  - vm_compute. discriminate.
  - vm_compute. discriminate.
  - reflexivity.
  - reflexivity.
  - reflexivity.
Defined.

(* ===================================================================== *)
(** ** The hidden date inputs *)
(* ===================================================================== *)

(** [toISOString] gives the UTC calendar date: it only depends on the UTC
    day the time value falls in. *)
Lemma toISODate_day (t : Z) :
  JS.toISODate t = JS.toISODate (t / JS.msPerDay * JS.msPerDay).
Proof.
  unfold JS.toISODate.
  now rewrite Z.div_mul by (unfold JS.msPerDay; lia).
Qed.

(** X11: the hidden start input gets the UTC date of the clicked [Date].
    For a click delivered as local midnight in a zone east of UTC, that is
    [off] milliseconds (at most a day) before the UTC midnight of day [D],
    the input holds the date of day [D - 1], the day before the one
    clicked. *)
Theorem hidden_start_date_east_of_utc
    (today : Z) (info : ClickInfo) (D off : Z) (s : State) :
  today <= date info ->
  startDate s = None ->
  date info = D * JS.msPerDay - off ->
  0 < off <= JS.msPerDay ->
  val (step (SimpleDateClick today info) s) "simpleDateInput"
  = JS.toISODate ((D - 1) * JS.msPerDay).
Proof.
  intros Ht Hs Hd Hoff. cbn [step].
  rewrite simple_dateClick_start by auto.
  rewrite val_validateForm, val_set_html, val_highlightRange.
  rewrite val_updateDateDisplay_start, toISODate_day.
  do 2 f_equal.
  assert (Hms : 0 < JS.msPerDay) by (unfold JS.msPerDay; lia).
  symmetry. apply (Z.div_unique_pos _ _ _ (JS.msPerDay - off)); lia.
Qed.

Lemma hidden_start_date_east_of_utc_witness :
  val (step (SimpleDateClick (date jan5_utc8) jan5_utc8) initial) "simpleDateInput"
  = "2024-01-04".
Proof.
  apply (hidden_start_date_east_of_utc (date jan5_utc8) jan5_utc8 19727
           (8 * hour) initial).
  - vm_compute. discriminate.
  - reflexivity.
  - vm_compute. reflexivity.
  - vm_compute. split; [reflexivity|discriminate].
Defined.

(* ===================================================================== *)
(** ** More on the set selection *)
(* ===================================================================== *)

Lemma advanced_dateClick_new (info : ClickInfo) (s : State) :
  selectedDates s !! dateStr info = None ->
  Calendar.advanced_dateClick info s
  = Calendar.validateForm
      (Calendar.updateSelectedDatesDisplay
         (set_selectedDates (<[dateStr info := true]> (selectedDates s)) s)).
Proof.
  intros H. unfold Calendar.advanced_dateClick, Calendar.has. now rewrite H.
Qed.

Lemma advanced_dateClick_old (info : ClickInfo) (s : State) :
  is_Some (selectedDates s !! dateStr info) ->
  Calendar.advanced_dateClick info s = s.
Proof.
  intros [v H]. unfold Calendar.advanced_dateClick, Calendar.has. now rewrite H.
Qed.

Lemma selectedDates_advanced_dateClick_new (info : ClickInfo) (s : State) :
  selectedDates s !! dateStr info = None ->
  selectedDates (Calendar.advanced_dateClick info s)
  = <[dateStr info := true]> (selectedDates s).
Proof. intros H. now rewrite advanced_dateClick_new. Qed.

(** X12: adding is idempotent: a second click on the same date of the
    advanced calendar changes nothing at all. *)
Theorem advanced_dateClick_idempotent (info : ClickInfo) (s : State) :
  Calendar.advanced_dateClick info (Calendar.advanced_dateClick info s)
  = Calendar.advanced_dateClick info s.
Proof.
  destruct (selectedDates s !! dateStr info) as [v|] eqn:E.
  - rewrite (advanced_dateClick_old info s) by eauto.
    apply advanced_dateClick_old. eauto.
  - apply advanced_dateClick_old.
    rewrite selectedDates_advanced_dateClick_new by assumption.
    rewrite lookup_insert_eq. eauto.
Qed.

(** Two exports of the same selection are the same string. *)
Lemma dates_exported_unique (s s' : State) :
  dates_exported s -> dates_exported s' ->
  selectedDates s' = selectedDates s ->
  val s' "dates" = val s "dates".
Proof.
  intros (l & H1 & H2 & H3 & H4) (l' & H1' & H2' & H3' & H4') Hm.
  rewrite H1, H1'. f_equal.
  apply (@Sorted_unique _ JS.str_le str_le_trans str_le_antisym); auto.
  apply NoDup_Permutation; auto.
  intros d. rewrite H4, H4', Hm. reflexivity.
Qed.

(** X13: adding a date that was not selected and removing it again gives
    back the selection, and, on a page whose [dates] field exported the
    selection, the field. *)
Theorem add_then_remove_restores (info : ClickInfo) (s : State) :
  selectedDates s !! dateStr info = None ->
  dates_exported s ->
  let s' := run [AdvancedDateClick info; RemoveDate (dateStr info)] s in
  selectedDates s' = selectedDates s /\ val s' "dates" = val s "dates".
Proof.
  intros H He. cbn [run fold_left step]. cbn zeta.
  assert (Hm : selectedDates
                 (Calendar.removeDate (dateStr info)
                    (Calendar.advanced_dateClick info s))
               = selectedDates s).
  { unfold Calendar.removeDate.
    frame selectedDates.
    unfold Calendar.updateSelectedDatesDisplay. frame selectedDates.
    cbn [selectedDates set_selectedDates].
    rewrite selectedDates_advanced_dateClick_new by assumption.
    rewrite delete_insert_eq. now apply delete_id. }
  split; [exact Hm|].
  apply dates_exported_unique; auto.
  unfold Calendar.removeDate.
  apply validateForm_keeps_export, updateSelectedDatesDisplay_exports.
Qed.

Lemma add_then_remove_restores_witness :
  let s' := run [AdvancedDateClick jan2; RemoveDate (dateStr jan2)] initial in
  selectedDates s' = selectedDates initial /\ val s' "dates" = val initial "dates".
Proof.
  apply (add_then_remove_restores jan2 initial).
  - reflexivity.
  - exists []. split; [reflexivity|]. split; [constructor|].
    split; [constructor|].
    intros d. split.
    + intros H. inversion H.
    + intros [v H]. cbn in H. rewrite lookup_empty in H. discriminate.
Defined.

(** The click that adds a date, field by field. *)
Lemma advanced_dateClick_new_fields (info : ClickInfo) (s : State) :
  selectedDates s !! dateStr info = None ->
  let m := <[dateStr info := true]> (selectedDates s) in
  let l := JS.sort (Calendar.keys m) in
  Calendar.advanced_dateClick info s
  = mkState (lf_startDate s) (lf_endDate s) (startDate s) (endDate s) m
      (selecting s) (events s)
      (<["dates" := JS.join ";" l]> (value s))
      (<["selectedDatesList" := Items l]> (html s))
      (<[submitBtn :=
           negb (JS.truthy (val s "leaveType"))
           || negb (if modeSwitch s then (0 <? size m)%nat
                    else Calendar.truthy (startDate s) && Calendar.truthy (endDate s))]>
         (disabled s))
      (<["noDateSelectedMessage" := negb (0 <? length l)%nat]> (shown s))
      (classes s) (modeSwitch s) (files s) (alerts s) (reads s).
Proof.
  intros H. cbn zeta. rewrite advanced_dateClick_new by assumption.
  unfold Calendar.validateForm, Calendar.updateSelectedDatesDisplay.
  destruct s as [ls le st en sd sl ev va ht di sh cl ms fi al re].
  unfold set_disabled, set_shown, set_html, set_value, set_selectedDates, val.
  cbn. now rewrite lookup_insert_ne by done.
Qed.

Lemma advanced_dateClick_dateStr (i1 i2 : ClickInfo) (s : State) :
  dateStr i1 = dateStr i2 ->
  Calendar.advanced_dateClick i1 s = Calendar.advanced_dateClick i2 s.
Proof. intros H. unfold Calendar.advanced_dateClick. now rewrite H. Qed.

Lemma advanced_dateClick_lookup_other (info : ClickInfo) (s : State) (d : string) :
  d <> dateStr info ->
  selectedDates (Calendar.advanced_dateClick info s) !! d = selectedDates s !! d.
Proof.
  intros Hd. destruct (selectedDates s !! dateStr info) as [v|] eqn:E.
  - now rewrite advanced_dateClick_old by eauto.
  - rewrite selectedDates_advanced_dateClick_new by assumption.
    now rewrite lookup_insert_ne.
Qed.

(** X14: clicks on the advanced calendar commute: the order in which two
    dates are picked leaves no trace in the state, neither in the
    selection, nor in the hidden field, the list or the button. *)
Theorem advanced_dateClicks_commute (i1 i2 : ClickInfo) (s : State) :
  Calendar.advanced_dateClick i2 (Calendar.advanced_dateClick i1 s)
  = Calendar.advanced_dateClick i1 (Calendar.advanced_dateClick i2 s).
Proof.
  destruct (decide (dateStr i1 = dateStr i2)) as [Heq|Hne].
  - rewrite (advanced_dateClick_dateStr i1 i2 s Heq).
    apply advanced_dateClick_dateStr. now symmetry.
  - destruct (selectedDates s !! dateStr i1) as [v1|] eqn:E1;
      destruct (selectedDates s !! dateStr i2) as [v2|] eqn:E2.
    + rewrite (advanced_dateClick_old i1 s), (advanced_dateClick_old i2 s) by eauto.
      now rewrite (advanced_dateClick_old i1 s) by eauto.
    + rewrite (advanced_dateClick_old i1 s) by eauto.
      symmetry. apply advanced_dateClick_old.
      rewrite advanced_dateClick_lookup_other by assumption. eauto.
    + rewrite (advanced_dateClick_old i2 s) by eauto.
      apply advanced_dateClick_old.
      rewrite advanced_dateClick_lookup_other by congruence. eauto.
    + assert (E1' : selectedDates (Calendar.advanced_dateClick i2 s) !! dateStr i1
                    = None)
        by now rewrite advanced_dateClick_lookup_other.
      assert (E2' : selectedDates (Calendar.advanced_dateClick i1 s) !! dateStr i2
                    = None)
        by (rewrite advanced_dateClick_lookup_other by congruence; assumption).
      rewrite (advanced_dateClick_new_fields i2 _ E2').
      rewrite (advanced_dateClick_new_fields i1 _ E1').
      rewrite (advanced_dateClick_new_fields i1 s E1).
      rewrite (advanced_dateClick_new_fields i2 s E2).
      cbn zeta. unfold val. cbn.
      rewrite !insert_insert_eq.
      rewrite !(lookup_insert_ne _ "dates" "leaveType") by done.
      rewrite (insert_insert_ne _ (dateStr i2) (dateStr i1)) by congruence.
      reflexivity.
Qed.

(** What [updateSelectedDatesDisplay] shows. *)
Lemma updateSelectedDatesDisplay_shows (s : State) :
  let s' := Calendar.updateSelectedDatesDisplay s in
  let l := JS.sort (Calendar.keys (selectedDates s)) in
  html s' !! "selectedDatesList" = Some (Items l)
  /\ val s' "dates" = JS.join ";" l
  /\ shown s' !! "noDateSelectedMessage" = Some (negb (0 <? length l)%nat).
Proof.
  cbn zeta. unfold Calendar.updateSelectedDatesDisplay, val. cbn.
  rewrite !lookup_insert_eq. auto.
Qed.

(** X15: after a date is removed, the visible list and the hidden field
    hold the same dates, namely those selected before except the removed
    one, and the "no date selected" message is shown exactly when none is
    left.  Removing a date that is not selected leaves the selection as it
    is. *)
Theorem removeDate_list_and_message (d : string) (s : State) :
  let s' := step (RemoveDate d) s in
  exists l : list string,
    html s' !! "selectedDatesList" = Some (Items l)
    /\ val s' "dates" = JS.join ";" l
    /\ (forall x, x ∈ l <-> is_Some (selectedDates s !! x) /\ x <> d)
    /\ (shown s' !! "noDateSelectedMessage" = Some true <-> l = [])
    /\ (selectedDates s !! d = None -> selectedDates s' = selectedDates s).
Proof.
  cbn zeta. cbn [step]. unfold Calendar.removeDate.
  exists (JS.sort (Calendar.keys (delete d (selectedDates s)))).
  pose proof (updateSelectedDatesDisplay_shows
                (set_selectedDates (delete d (selectedDates s)) s)) as H.
  cbn zeta in H. destruct H as (H1 & H2 & H3).
  split; [exact H1|]. split; [rewrite val_validateForm; exact H2|].
  split; [|split].
  - intros x. rewrite sort_permutation, elem_of_keys.
    destruct (decide (x = d)) as [->|Hx].
    + rewrite lookup_delete_eq. split; [intros [? ?]; discriminate|tauto].
    + rewrite lookup_delete_ne by congruence. tauto.
  - change (shown (Calendar.validateForm ?x)) with (shown x).
    rewrite H3.
    destruct (JS.sort _) as [|y l]; cbn; split; congruence.
  - intros Hd.
    frame selectedDates. unfold Calendar.updateSelectedDatesDisplay.
    frame selectedDates. cbn [selectedDates set_selectedDates].
    now apply delete_id.
Qed.

(* ===================================================================== *)
(** ** More on [updateDateRange] *)
(* ===================================================================== *)

(** X16: [updateDateRange] does not depend on the order either: from no
    selection, two date strings that parse to [t1 < t2] give start = the
    earlier string and end = the later one in whichever order they are
    passed, and the duration field gets the span in days, rounded up, plus
    one. *)
Theorem updateDateRange_order_independent (x1 x2 : string) (t1 t2 : Z) (s : State) :
  JS.Date_parse x1 = Some t1 ->
  JS.Date_parse x2 = Some t2 ->
  t1 < t2 ->
  lf_startDate s = None ->
  let sa := LeaveForm.updateDateRange x2 (LeaveForm.updateDateRange x1 s) in
  let sb := LeaveForm.updateDateRange x1 (LeaveForm.updateDateRange x2 s) in
  (lf_startDate sa, lf_endDate sa) = (Some x1, Some x2)
  /\ (lf_startDate sb, lf_endDate sb) = (Some x1, Some x2)
  /\ val sa "simpleDuration" = JS.string_of_Z (JS.ceil_div (t2 - t1) JS.msPerDay + 1)
  /\ val sb "simpleDuration" = val sa "simpleDuration".
Proof.
  intros P1 P2 Hlt Hs. cbn zeta.
  destruct (updateDateRange_first x1 s) as (A1 & A2 & _); [left; now rewrite Hs|].
  destruct (updateDateRange_first x2 s) as (B1 & B2 & _); [left; now rewrite Hs|].
  destruct (updateDateRange_second x2 x1 t1 t2 _ A1) as (A3 & A4);
    [now rewrite A2|assumption..|].
  destruct (updateDateRange_second x1 x2 t2 t1 _ B1) as (B3 & B4);
    [now rewrite B2|assumption..|].
  assert (E1 : (t2 <? t1) = false) by (apply Z.ltb_ge; lia).
  assert (E2 : (t1 <? t2) = true) by (apply Z.ltb_lt; lia).
  rewrite E1 in A3. rewrite E2 in B3.
  rewrite A3, B3, A4, B4.
  replace (Z.max t1 t2 - Z.min t1 t2) with (t2 - t1) by lia.
  replace (Z.max t2 t1 - Z.min t2 t1) with (t2 - t1) by lia.
  auto.
Qed.

Lemma updateDateRange_order_independent_witness :
  let sa := LeaveForm.updateDateRange "2024-01-05"
              (LeaveForm.updateDateRange "2024-01-01" initial) in
  let sb := LeaveForm.updateDateRange "2024-01-01"
              (LeaveForm.updateDateRange "2024-01-05" initial) in
  (lf_startDate sa, lf_endDate sa) = (Some "2024-01-01", Some "2024-01-05")
  /\ (lf_startDate sb, lf_endDate sb) = (Some "2024-01-01", Some "2024-01-05")
  /\ val sa "simpleDuration" = "5"
  /\ val sb "simpleDuration" = val sa "simpleDuration".
Proof.
  apply (updateDateRange_order_independent "2024-01-01" "2024-01-05"
           (date jan1) (date jan5) initial).
  - reflexivity.
  - reflexivity.
  - vm_compute. reflexivity.
  - reflexivity.
Defined.

(** X17: [updateDateRange] does not validate its argument.  On any host,
    a string that the host's [Date] constructor reads as an Invalid Date,
    passed when a start is chosen, becomes the end date as it is, and the
    hidden duration field gets [NaN]. *)
Theorem updateDateRange_unparsable_end (parse : string -> option Z)
    (sel x : string) (s : State) :
  lf_startDate s = Some x ->
  JS.truthy x = true ->
  JS.truthy_opt (lf_endDate s) = false ->
  parse sel = None ->
  let s' := LeaveForm.updateDateRange_with parse sel s in
  lf_startDate s' = Some x
  /\ lf_endDate s' = Some sel
  /\ val s' "simpleEndDateInput" = sel
  /\ val s' "simpleDuration" = "NaN".
Proof.
  intros Hs Hx He Hp. unfold LeaveForm.updateDateRange_with.
  rewrite Hs, He. cbn [JS.truthy_opt]. rewrite Hx.
  cbn [negb orb andb LeaveForm.new_Date_with]. rewrite Hp.
  cbn [JS.lt_number]. cbn zeta.
  autorewrite with frame.
  rewrite val_set_value_eq.
  rewrite !val_set_value_ne by done. autorewrite with frame.
  rewrite val_set_value_eq.
  cbn [lf_startDate lf_endDate set_lf_endDate LeaveForm.new_Date_with from_option id].
  rewrite Hp. cbn [JS.sub_number option_map JS.string_of_number].
  rewrite Hs. auto.
Qed.

(** The string [not a date], which no host reads as a date, after a start
    on 1 January 2024. *)
Lemma updateDateRange_unparsable_end_witness :
  let s' := LeaveForm.updateDateRange_with JS.Date_parse "not a date"
              (LeaveForm.updateDateRange "2024-01-01" initial) in
  lf_startDate s' = Some "2024-01-01"
  /\ lf_endDate s' = Some "not a date"
  /\ val s' "simpleEndDateInput" = "not a date"
  /\ val s' "simpleDuration" = "NaN".
Proof.
  apply (updateDateRange_unparsable_end JS.Date_parse "not a date" "2024-01-01"
           (LeaveForm.updateDateRange "2024-01-01" initial));
    reflexivity.
Defined.

(** [updateDateRange] consults the host's parser on the chosen string and
    on the stored start only: two hosts that read these two alike take it
    to the same state.  So what is proved of [LeaveForm.updateDateRange]
    for strings in the date-only form holds on every host that reads that
    form as the language defines it. *)
Lemma updateDateRange_with_ext (parse parse' : string -> option Z)
    (sel : string) (s : State) :
  parse sel = parse' sel ->
  (forall x, lf_startDate s = Some x -> parse x = parse' x) ->
  LeaveForm.updateDateRange_with parse sel s
  = LeaveForm.updateDateRange_with parse' sel s.
Proof.
  intros Hsel Hx. unfold LeaveForm.updateDateRange_with.
  rewrite <- Hsel.
  destruct (negb (JS.truthy_opt (lf_startDate s))
            || JS.truthy_opt (lf_startDate s) && JS.truthy_opt (lf_endDate s));
    [reflexivity|].
  assert (Hst : LeaveForm.new_Date_with parse' (lf_startDate s)
                = LeaveForm.new_Date_with parse (lf_startDate s)).
  { destruct (lf_startDate s) as [x|] eqn:E; [|reflexivity].
    cbn [LeaveForm.new_Date_with]. symmetry. now apply Hx. }
  rewrite Hst.
  destruct (JS.lt_number (parse sel) (LeaveForm.new_Date_with parse (lf_startDate s)));
    cbn zeta;
    cbn [lf_startDate lf_endDate set_lf_startDate set_lf_endDate];
    rewrite ?Hst; cbn [LeaveForm.new_Date_with]; rewrite <- ?Hsel;
    reflexivity.
Qed.

(* ===================================================================== *)
(** ** Clicks, switch and submission: further properties *)
(* ===================================================================== *)

(** X18: a click on the simple calendar is ignored, leaving the whole state
    as it was, exactly when its date is before today; a click on today
    itself is accepted. *)
Theorem simple_dateClick_ignored_iff_past (today : Z) (info : ClickInfo) (s : State) :
  step (SimpleDateClick today info) s = s <-> date info < today.
Proof.
  cbn [step]. split; [|apply simple_dateClick_past].
  intros H. destruct (Z.lt_ge_cases (date info) today) as [Hlt|Hge]; [exact Hlt|].
  exfalso.
  pose proof (simple_dateClick_range today info s Hge) as Hr.
  rewrite H in Hr. unfold range_selection in Hr.
  destruct (startDate s) as [a|]; destruct (endDate s) as [b|];
    lazy beta iota in Hr; try discriminate.
  destruct (date info <? a); discriminate.
Qed.

Lemma shown_validateForm (s : State) :
  shown (Calendar.validateForm s) = shown s.
Proof. reflexivity. Qed.

Lemma shown_clearDateSelection (s : State) :
  shown (Calendar.clearDateSelection s) = shown s.
Proof. reflexivity. Qed.

(** X19: after the mode switch is flipped the switch is inverted and
    exactly one of the two blocks is visible, the one of the mode the
    switch now shows. *)
Theorem toggle_mode_shows_one_block (s : State) :
  let s' := toggle_mode s in
  modeSwitch s' = negb (modeSwitch s)
  /\ shown s' !! "advanced-mode" = Some (modeSwitch s')
  /\ shown s' !! "simple-mode" = Some (negb (modeSwitch s')).
Proof.
  cbn zeta.
  assert (Hm : modeSwitch (toggle_mode s) = negb (modeSwitch s)).
  { unfold toggle_mode, Calendar.modeSwitch_change, LeaveForm.modeSwitch_change.
    cbn [modeSwitch set_modeSwitch].
    destruct (modeSwitch s); reflexivity. }
  rewrite Hm. split; [reflexivity|].
  unfold toggle_mode, Calendar.modeSwitch_change, LeaveForm.modeSwitch_change.
  cbn [modeSwitch set_modeSwitch].
  destruct (modeSwitch s); cbn [negb modeSwitch set_shown set_modeSwitch].
  - rewrite shown_validateForm.
    unfold Calendar.updateSelectedDatesDisplay. cbn [shown set_shown set_html
      set_value set_selectedDates].
    split; repeat (rewrite lookup_insert_eq || rewrite lookup_insert_ne by done);
      reflexivity.
  - rewrite shown_validateForm.
    rewrite shown_clearDateSelection. cbn [shown set_shown].
    split; repeat (rewrite lookup_insert_eq || rewrite lookup_insert_ne by done);
      reflexivity.
Qed.

(** X20: the submit listener lets the submission through, silently and
    without touching the state, exactly when a leave type is selected, the
    date field of the current mode is filled and the notes are not blank;
    in every other case it blocks. *)
Theorem submission_passes_iff (s : State) :
  LeaveForm.validateForm s = (s, LeaveForm.passed)
  <-> leaveTypeSelected s = true
      /\ JS.truthy (date_field s) = true
      /\ notesNonEmpty s = true.
Proof.
  split.
  - unfold LeaveForm.validateForm, leaveTypeSelected, date_field, notesNonEmpty.
    destruct (JS.truthy (val s "leaveType")); cbn [negb]; [|discriminate].
    destruct (modeSwitch s).
    + destruct (JS.truthy (val s "datesList")); cbn [negb]; [|discriminate].
      destruct (JS.truthy (JS.trim (val s notesInput))); cbn [negb];
        [auto|discriminate].
    + destruct (JS.truthy (val s "simpleDatePicker")); cbn [negb]; [|discriminate].
      destruct (JS.truthy (JS.trim (val s notesInput))); cbn [negb];
        [auto|discriminate].
  - intros (H1 & H2 & H3). now apply submit_passes_when_valid.
Qed.

(** The form values an event writes. *)
Lemma step_val_other (e : Event) (s : State) (k : string) :
  k <> "simpleDateInput" -> k <> "simpleEndDateInput" -> k <> "simpleDuration" ->
  k <> "dates" -> k <> "leaveType" -> k <> notesInput ->
  val (step e s) k = val s k.
Proof.
  intros K1 K2 K3 K4 K5 K6. destruct e; cbn [step].
  - now apply val_simple_dateClick_other.
  - unfold Calendar.advanced_dateClick. destruct (negb _); [|reflexivity].
    rewrite val_validateForm. unfold Calendar.updateSelectedDatesDisplay.
    autorewrite with frame. rewrite val_set_value_ne by congruence.
    now autorewrite with frame.
  - unfold Calendar.removeDate.
    rewrite val_validateForm. unfold Calendar.updateSelectedDatesDisplay.
    autorewrite with frame. rewrite val_set_value_ne by congruence.
    now autorewrite with frame.
  - unfold toggle_mode, Calendar.modeSwitch_change.
    rewrite val_validateForm. unfold LeaveForm.modeSwitch_change.
    cbn [modeSwitch set_modeSwitch].
    destruct (negb (modeSwitch s)); cbn [modeSwitch set_shown set_modeSwitch].
    + unfold Calendar.clearDateSelection.
      rewrite val_set_events, val_updateDateDisplay_other by assumption.
      now autorewrite with frame.
    + unfold Calendar.updateSelectedDatesDisplay.
      autorewrite with frame. rewrite val_set_value_ne by congruence.
      now autorewrite with frame.
  - unfold Calendar.clearDateSelection.
    rewrite val_set_events, val_updateDateDisplay_other by assumption.
    now autorewrite with frame.
  - unfold LeaveForm.validateLeaveType.
    destruct (JS.truthy _); autorewrite with frame;
      now apply val_set_value_ne; congruence.
  - apply val_set_value_ne. congruence.
  - unfold LeaveForm.attachmentInput_change. cbn [files set_files].
    destruct f as [f|]; [|reflexivity].
    destruct (negb _); [reflexivity|]. destruct (_ <? _); reflexivity.
  - reflexivity.
  - reflexivity.
  - reflexivity.
  - destruct (submit_shows_at_most_one_alert s) as [E|[msg E]]; rewrite E;
      reflexivity.
Qed.

(** X21: the only form values ever written are the three hidden inputs of
    the range, the hidden [dates] field, and the leave type and notes the
    user edits.  In particular no event fills [#datesList] or
    [#simpleDatePicker], the fields the submit listener checks for a date:
    selecting dates on either calendar does not change its verdict. *)
Theorem other_form_values_untouched (es : list Event) (s : State) (k : string) :
  k <> "simpleDateInput" -> k <> "simpleEndDateInput" -> k <> "simpleDuration" ->
  k <> "dates" -> k <> "leaveType" -> k <> notesInput ->
  val (run es s) k = val s k.
Proof.
  intros K1 K2 K3 K4 K5 K6. revert s.
  induction es as [|e es IH]; intros s; cbn; [reflexivity|].
  rewrite IH. now apply step_val_other.
Qed.

Lemma other_form_values_untouched_witness :
  val (run [LeaveTypeChange "annual"; NotesInput "family visit";
            SimpleDateClick (date jan1) jan1; SimpleDateClick (date jan1) jan5]
         initial) "simpleDatePicker"
  = val initial "simpleDatePicker".
Proof.
  apply (other_form_values_untouched _ initial "simpleDatePicker"); discriminate.
Defined.

(** With everything filled in through the page's own controls, the submit
    listener still asks for a date. *)
Example submit_after_full_selection_blocked :
  let s := run [LeaveTypeChange "annual"; NotesInput "family visit";
                SimpleDateClick (date jan1) jan1; SimpleDateClick (date jan1) jan5]
             initial in
  submit_enabled s = true
  /\ snd (LeaveForm.validateForm s) = LeaveForm.blocked
  /\ alerts (fst (LeaveForm.validateForm s)) = ["Please select a date"].
Proof. vm_compute. repeat split. Qed.

(* ===================================================================== *)
(** ** The drag feedback *)
(* ===================================================================== *)

Lemma handle_no_stale_mark (e : DragFeedback.MouseEvent) (d : DragFeedback.Drag) :
  DragFeedback.no_stale_mark d -> DragFeedback.no_stale_mark (DragFeedback.handle e d).
Proof.
  unfold DragFeedback.no_stale_mark. intros H.
  destruct e as [[el|]|[el|]|]; cbn [DragFeedback.handle DragFeedback.mousedown].
  - cbn. discriminate.
  - exact H.
  - unfold DragFeedback.mousemove.
    destruct (DragFeedback.isDragging d) eqn:E; cbn; intros; try discriminate; try congruence; auto.
  - unfold DragFeedback.mousemove.
    destruct (DragFeedback.isDragging d) eqn:E; cbn; intros; try discriminate; try congruence; auto.
  - unfold DragFeedback.mouseup.
    destruct (DragFeedback.isDragging d) eqn:E; cbn; intros; try congruence; auto.
Qed.

(** X22: outside a drag no day cell carries the [selecting] mark, whatever
    the sequence of mouse events: every mark set by a press or a move is
    removed by the release that ends the drag. *)
Theorem drag_leaves_no_mark (es : list DragFeedback.MouseEvent) (d : DragFeedback.Drag) :
  DragFeedback.no_stale_mark d ->
  DragFeedback.no_stale_mark (DragFeedback.handle_all es d).
Proof.
  revert d. induction es as [|e es IH]; intros d H; cbn; [assumption|].
  apply IH. now apply handle_no_stale_mark.
Qed.

Lemma drag_leaves_no_mark_witness :
  DragFeedback.no_stale_mark
    (DragFeedback.handle_all
       [DragFeedback.Down (Some 3%nat); DragFeedback.Move (Some 4%nat);
        DragFeedback.Move None; DragFeedback.Up; DragFeedback.Move (Some 5%nat)]
       DragFeedback.idle).
Proof.
  apply (drag_leaves_no_mark _ DragFeedback.idle). intros _. reflexivity.
Defined.

(** X23: while a drag is in progress, a move over a day cell leaves exactly
    that cell marked; a move outside the day cells, or when no drag is in
    progress, changes nothing. *)
Theorem mousemove_marks_one_cell (el : nat) (d : DragFeedback.Drag) :
  DragFeedback.isDragging d = true ->
  DragFeedback.selectingCells (DragFeedback.mousemove (Some el) d) = {[el]}
  /\ DragFeedback.isDragging (DragFeedback.mousemove (Some el) d) = true
  /\ DragFeedback.mousemove None d = d.
Proof.
  intros H. unfold DragFeedback.mousemove. rewrite H. cbn.
  split; [|auto].
  apply set_eq. intros x.
  rewrite elem_of_union, elem_of_filter, elem_of_singleton. tauto.
Qed.

Lemma mousemove_marks_one_cell_witness :
  DragFeedback.selectingCells
    (DragFeedback.mousemove (Some 4%nat)
       (DragFeedback.handle_all
          [DragFeedback.Down (Some 1%nat); DragFeedback.Down (Some 2%nat)]
          DragFeedback.idle)) = {[4%nat]}
  /\ DragFeedback.isDragging
       (DragFeedback.mousemove (Some 4%nat)
          (DragFeedback.handle_all
             [DragFeedback.Down (Some 1%nat); DragFeedback.Down (Some 2%nat)]
             DragFeedback.idle)) = true
  /\ DragFeedback.mousemove None
       (DragFeedback.handle_all
          [DragFeedback.Down (Some 1%nat); DragFeedback.Down (Some 2%nat)]
          DragFeedback.idle)
     = DragFeedback.handle_all
         [DragFeedback.Down (Some 1%nat); DragFeedback.Down (Some 2%nat)]
         DragFeedback.idle.
Proof.
  apply (mousemove_marks_one_cell 4%nat). reflexivity.
Defined.

(* ===================================================================== *)
(** ** The completed range *)
(* ===================================================================== *)

Lemma range_duration_rounded_up_witness :
  let s' := run [SimpleDateClick (date jan1) jan1;
                 SimpleDateClick (date jan1) jan5] initial in
  range_selection s' = (Some (date jan1), Some (date jan5))
  /\ exists n : Z,
       val s' "simpleDuration" = JS.string_of_Z (n + 1)
       /\ (n - 1) * JS.msPerDay < date jan5 - date jan1 <= n * JS.msPerDay
       /\ forall k, date jan5 = date jan1 + k * JS.msPerDay -> n = k.
Proof.
  apply (range_duration_rounded_up (date jan1) jan1 jan5 initial).
  - vm_compute. discriminate.
  - vm_compute. discriminate.
  - reflexivity.
Defined.

(** X24: the click that completes a range (in simple mode) writes the UTC
    dates of the earlier and of the later of the two clicked [Date]s into
    the hidden start and end inputs, whichever was clicked first, and
    enables the submit button exactly when a leave type is selected. *)
Theorem completing_click_fills_inputs
    (today : Z) (info : ClickInfo) (a : Z) (s : State) :
  today <= date info ->
  startDate s = Some a -> endDate s = None ->
  modeSwitch s = false ->
  let s' := step (SimpleDateClick today info) s in
  val s' "simpleDateInput" = JS.toISODate (Z.min a (date info))
  /\ val s' "simpleEndDateInput" = JS.toISODate (Z.max a (date info))
  /\ submit_enabled s' = leaveTypeSelected s.
Proof.
  intros Ht Hs He Hm. cbn [step]. cbn zeta.
  rewrite (simple_dateClick_complete today info a s Ht Hs He). cbn zeta.
  split; [|split].
  - rewrite val_validateForm, val_highlightRange.
    apply val_updateDateDisplay_start.
  - rewrite val_validateForm, val_highlightRange.
    apply val_updateDateDisplay_end.
  - rewrite validateForm_enables. unfold leaveTypeSelected, selectionValid.
    rewrite val_highlightRange, val_updateDateDisplay_other by done.
    rewrite !val_set_value_ne by done. autorewrite with frame.
    frame modeSwitch. rewrite modeSwitch_highlightRange, modeSwitch_updateDateDisplay.
    frame modeSwitch. rewrite Hm.
    frame startDate. rewrite startDate_highlightRange, startDate_updateDateDisplay.
    frame startDate.
    frame endDate. rewrite endDate_highlightRange, endDate_updateDateDisplay.
    frame endDate.
    cbn [startDate endDate set_startDate set_endDate Calendar.truthy andb].
    now rewrite andb_true_r.
Qed.

Lemma completing_click_fills_inputs_witness :
  let s' := step (SimpleDateClick (date jan1) jan1)
              (step (SimpleDateClick (date jan1) jan5) type_chosen) in
  val s' "simpleDateInput" = "2024-01-01"
  /\ val s' "simpleEndDateInput" = "2024-01-05"
  /\ submit_enabled s' = true.
Proof.
  apply (completing_click_fills_inputs (date jan1) jan1 (date jan5)
           (step (SimpleDateClick (date jan1) jan5) type_chosen)).
  - vm_compute. discriminate.
  - reflexivity.
  - reflexivity.
  - reflexivity.
Defined.
